(** * Survey store of the neon application: relational model and properties

    The application keeps its data in PostgreSQL tables and reaches them
    through [database.py]; the Streamlit views ([employee_views.py],
    [admin_views.py], [governorate_admin_views.py]) call those functions.

    The tables are modelled as lists of rows (records named after the SQL
    aliases the queries use), a statement as a function from the store to
    its result rows and the store after it, and [execute_query] as the
    Python helper that runs one statement on a connection of its own.
    The table declarations are not part of the sources: no constraint is
    attached to a table, and the serial columns draw from counters kept in
    the store.  Connections are assumed to open and statements not to be
    refused by the server; exceptions the Python code raises by itself are
    modelled.  A query without [ORDER BY] yields its rows in an order the
    server chooses: the lists below fix one, and what is proved of such a
    listing is proved of its rows, by membership or up to permutation. *)

From Stdlib Require Import ZArith List String Bool Lia Permutation Sorted.
From Stdlib Require Import QArith_base.
Import ListNotations.
Close Scope Q_scope.
Open Scope string_scope.
Open Scope list_scope.
Open Scope Z_scope.

(** ** Rows *)

(** [Users u] *)
Record User := mkUser {
  u_user_id : Z;
  u_username : string;
  u_role : string;
  u_assigned_region : option Z
}.

(** [HealthAdministrations ha] *)
Record HealthAdministration := mkHealthAdministration {
  ha_admin_id : Z;
  ha_admin_name : string;
  ha_description : string;
  ha_governorate_id : Z
}.

(** [Governorates g] *)
Record Governorate := mkGovernorate {
  g_governorate_id : Z;
  g_governorate_name : string;
  g_description : string
}.

(** [Surveys s]; [created_at] is a timestamp in seconds. *)
Record Survey := mkSurvey {
  s_survey_id : Z;
  s_survey_name : string;
  s_created_by : Z;
  s_created_at : Z;
  s_is_active : bool
}.

(** [Survey_Fields sf]; [field_options] holds JSON text or NULL. *)
Record SurveyField := mkSurveyField {
  sf_field_id : Z;
  sf_survey_id : Z;
  sf_field_label : string;
  sf_field_type : string;
  sf_field_options : option string;
  sf_is_required : bool;
  sf_field_order : Z
}.

(** [SurveyGovernorate sg] *)
Record SurveyGovernorateLink := mkSurveyGovernorate {
  sg_survey_id : Z;
  sg_governorate_id : Z
}.

(** [UserSurveys us] *)
Record UserSurvey := mkUserSurvey {
  us_user_id : Z;
  us_survey_id : Z
}.

(** [Responses r] *)
Record Response := mkResponse {
  r_response_id : Z;
  r_survey_id : Z;
  r_user_id : Z;
  r_region_id : Z;
  r_is_completed : bool;
  r_submission_date : Z
}.

(** [Response_Details rd] *)
Record ResponseDetail := mkResponseDetail {
  rd_detail_id : Z;
  rd_response_id : Z;
  rd_field_id : Z;
  rd_answer_value : string
}.

(** [AuditLog al] *)
Record AuditLogEntry := mkAuditLogEntry {
  al_log_id : Z;
  al_user_id : Z;
  al_action_type : string;
  al_table_name : string;
  al_record_id : option Z;
  al_old_value : option string;
  al_new_value : option string;
  al_action_timestamp : Z
}.

(** ** The store *)

Record Store := mkStore {
  Users : list User;
  HealthAdministrations : list HealthAdministration;
  Governorates : list Governorate;
  Surveys : list Survey;
  Survey_Fields : list SurveyField;
  SurveyGovernorate : list SurveyGovernorateLink;
  UserSurveys : list UserSurvey;
  Responses : list Response;
  Response_Details : list ResponseDetail;
  AuditLog : list AuditLogEntry;
  (* next values of the serial columns *)
  Governorates_seq : Z;
  Survey_Fields_seq : Z;
  Responses_seq : Z;
  Response_Details_seq : Z;
  AuditLog_seq : Z
}.

Definition with_Governorates (f : list Governorate -> list Governorate) (n : Z) (db : Store) : Store :=
  mkStore (Users db) (HealthAdministrations db) (f (Governorates db)) (Surveys db)
    (Survey_Fields db) (SurveyGovernorate db) (UserSurveys db) (Responses db)
    (Response_Details db) (AuditLog db)
    n (Survey_Fields_seq db) (Responses_seq db)
    (Response_Details_seq db) (AuditLog_seq db).

Definition with_Surveys (f : list Survey -> list Survey) (db : Store) : Store :=
  mkStore (Users db) (HealthAdministrations db) (Governorates db) (f (Surveys db))
    (Survey_Fields db) (SurveyGovernorate db) (UserSurveys db) (Responses db)
    (Response_Details db) (AuditLog db)
    (Governorates_seq db) (Survey_Fields_seq db) (Responses_seq db)
    (Response_Details_seq db) (AuditLog_seq db).

Definition with_Survey_Fields (f : list SurveyField -> list SurveyField) (n : Z) (db : Store) : Store :=
  mkStore (Users db) (HealthAdministrations db) (Governorates db) (Surveys db)
    (f (Survey_Fields db)) (SurveyGovernorate db) (UserSurveys db) (Responses db)
    (Response_Details db) (AuditLog db)
    (Governorates_seq db) n (Responses_seq db)
    (Response_Details_seq db) (AuditLog_seq db).

Definition with_SurveyGovernorate (f : list SurveyGovernorateLink -> list SurveyGovernorateLink) (db : Store) : Store :=
  mkStore (Users db) (HealthAdministrations db) (Governorates db) (Surveys db)
    (Survey_Fields db) (f (SurveyGovernorate db)) (UserSurveys db) (Responses db)
    (Response_Details db) (AuditLog db)
    (Governorates_seq db) (Survey_Fields_seq db) (Responses_seq db)
    (Response_Details_seq db) (AuditLog_seq db).

Definition with_UserSurveys (f : list UserSurvey -> list UserSurvey) (db : Store) : Store :=
  mkStore (Users db) (HealthAdministrations db) (Governorates db) (Surveys db)
    (Survey_Fields db) (SurveyGovernorate db) (f (UserSurveys db)) (Responses db)
    (Response_Details db) (AuditLog db)
    (Governorates_seq db) (Survey_Fields_seq db) (Responses_seq db)
    (Response_Details_seq db) (AuditLog_seq db).

Definition with_Responses (f : list Response -> list Response) (n : Z) (db : Store) : Store :=
  mkStore (Users db) (HealthAdministrations db) (Governorates db) (Surveys db)
    (Survey_Fields db) (SurveyGovernorate db) (UserSurveys db) (f (Responses db))
    (Response_Details db) (AuditLog db)
    (Governorates_seq db) (Survey_Fields_seq db) n
    (Response_Details_seq db) (AuditLog_seq db).

Definition with_Response_Details (f : list ResponseDetail -> list ResponseDetail) (n : Z) (db : Store) : Store :=
  mkStore (Users db) (HealthAdministrations db) (Governorates db) (Surveys db)
    (Survey_Fields db) (SurveyGovernorate db) (UserSurveys db) (Responses db)
    (f (Response_Details db)) (AuditLog db)
    (Governorates_seq db) (Survey_Fields_seq db) (Responses_seq db)
    n (AuditLog_seq db).


(** ** Statements and [execute_query] *)

(** A statement yields the rows it returns and the store after it. *)
Definition Statement (R : Type) := Store -> list R * Store.

(** What [execute_query] hands back: [None], [True], one row
    ([fetchone]) or all rows ([fetchall]). *)
Inductive qresult (R : Type) : Type :=
| QNone
| QTrue
| QRow (r : R)
| QRows (rs : list R).
Arguments QNone {R}.
Arguments QTrue {R}.
Arguments QRow {R} r.
Arguments QRows {R} rs.

(** Python truth value of such a result. *)
Definition qtruthy {R} (q : qresult R) : bool :=
  match q with
  | QNone => false
  | QTrue => true
  | QRow _ => true
  | QRows [] => false
  | QRows (_ :: _) => true
  end.

(** [execute_query(query, params, fetch_one, fetch_all, commit)]: the flags
    are tested in the order [commit], [fetch_one], [fetch_all]; without
    [commit] the connection is closed and nothing the statement changed
    is kept. *)
Definition execute_query {R} (query : Statement R)
    (fetch_one fetch_all commit : bool) (db : Store) : qresult R * Store :=
  let '(rows, db') := query db in
  if commit then (QTrue, db')
  else if fetch_one then
    (match rows with [] => QNone | r :: _ => QRow r end, db)
  else if fetch_all then (QRows rows, db)
  else (QTrue, db).

(** [results if results else []] *)
Definition rows_or_empty {R} (q : qresult R) : list R :=
  match q with
  | QRows rs => rs
  | _ => []
  end.

Definition opt_eqb (o : option Z) (z : Z) : bool :=
  match o with
  | Some x => x =? z
  | None => false
  end.

(** ** Scope resolution: the survey listings *)

(** The query of [get_allowed_surveys]: [Users] joined to
    [HealthAdministrations] on [assigned_region], to [SurveyGovernorate]
    on the governorate, to [Surveys] on the survey, kept where the user
    is the given one and the survey is active.  The query has no
    [ORDER BY]: the rows come in an order the database chooses, and the
    nested-loop order below stands for it; what is proved of the listing
    is proved of its rows, never of their order. *)
Definition get_allowed_surveys_query (user_id : Z) : Statement (Z * string) :=
  fun db =>
  (flat_map (fun u =>
     flat_map (fun ha =>
       flat_map (fun sg =>
         flat_map (fun s =>
           if (u_user_id u =? user_id) && s_is_active s
           then [(s_survey_id s, s_survey_name s)] else [])
         (filter (fun s => sg_survey_id sg =? s_survey_id s) (Surveys db)))
       (filter (fun sg => ha_governorate_id ha =? sg_governorate_id sg)
               (SurveyGovernorate db)))
     (filter (fun ha => opt_eqb (u_assigned_region u) (ha_admin_id ha))
             (HealthAdministrations db)))
   (Users db), db).

Definition get_allowed_surveys (user_id : Z) (db : Store) : list (Z * string) :=
  rows_or_empty (fst (execute_query (get_allowed_surveys_query user_id) false true false db)).

(** The query of [get_user_allowed_surveys]: [UserSurveys] joined to
    [Surveys], for the given user.  No [ORDER BY] here either: the order
    of the rows below means nothing. *)
Definition get_user_allowed_surveys_query (user_id : Z) : Statement (Z * string) :=
  fun db =>
  (flat_map (fun us =>
     flat_map (fun s =>
       if us_user_id us =? user_id
       then [(s_survey_id s, s_survey_name s)] else [])
     (filter (fun s => us_survey_id us =? s_survey_id s) (Surveys db)))
   (UserSurveys db), db).

Definition get_user_allowed_surveys (user_id : Z) (db : Store) : list (Z * string) :=
  rows_or_empty (fst (execute_query (get_user_allowed_surveys_query user_id) false true false db)).

(** [update_user_allowed_surveys]: one transaction that deletes the
    user's rows of [UserSurveys] and inserts one row per given id. *)
Definition update_user_allowed_surveys (user_id : Z) (survey_ids : list Z)
    (db : Store) : bool * Store :=
  let db1 := with_UserSurveys (filter (fun us => negb (us_user_id us =? user_id))) db in
  let db2 := fold_left
      (fun d survey_id => with_UserSurveys (fun t => t ++ [mkUserSurvey user_id survey_id]) d)
      survey_ids db1 in
  (true, db2).

(** ** Python values, dictionaries and target fields *)

(** The values a form widget returns and the [Any] arguments of
    [log_audit_action]: [None], a string, a boolean, a number (int or
    float, as the rational it denotes), a date (day number) or a list of
    strings. *)
Inductive pyval : Type :=
| PyNone
| PyStr (s : string)
| PyBool (b : bool)
| PyNum (q : Q)
| PyDate (d : Z)
| PyList (l : list string).

(** Python truth value: [None], the empty string, [False], zero and the
    empty list are false. *)
Definition truthy (v : pyval) : bool :=
  match v with
  | PyNone => false
  | PyStr s => negb (String.eqb s "")
  | PyBool b => b
  | PyNum q => negb (Qnum q =? 0)
  | PyDate _ => true
  | PyList l => match l with [] => false | _ :: _ => true end
  end.

(** A [dict] keyed by field id, in insertion order. *)
Definition dict := list (Z * pyval).

Fixpoint dict_set (k : Z) (v : pyval) (d : dict) : dict :=
  match d with
  | [] => [(k, v)]
  | (k', v') :: rest =>
      if k' =? k then (k, v) :: rest else (k', v') :: dict_set k v rest
  end.

Fixpoint dict_lookup (k : Z) (d : dict) : option pyval :=
  match d with
  | [] => None
  | (k', v') :: rest => if k' =? k then Some v' else dict_lookup k rest
  end.

(** [d.get(k)] *)
Definition dict_get (d : dict) (k : Z) : pyval :=
  match dict_lookup k d with
  | Some v => v
  | None => PyNone
  end.

(** One row of [get_survey_fields]: the tuple
    [(field_id, field_label, field_type, field_options, is_required, field_order)]. *)
Record FieldTuple := mkFieldTuple {
  field_id : Z;
  field_label : string;
  field_type : string;
  field_options : option string;
  is_required : bool;
  field_order : Z
}.

(** One entry of the [fields] argument of [update_survey]: a dict whose
    key ['field_id'] is present for a field to update and absent for a
    field to add; ['field_options'] and ['is_required'] are read with
    [get]. *)
Record TargetField := mkTargetField {
  tf_field_id : option Z;
  tf_field_label : string;
  tf_field_type : string;
  tf_field_options : option (list string);
  tf_is_required : option bool
}.

(** Timestamps are seconds; [submission_date::date] and [CURRENT_DATE]
    are day numbers. *)
Definition date_of (timestamp : Z) : Z := timestamp / 86400.

(** Ascending [ORDER BY] on an integer key, as an insertion sort. *)
Fixpoint insert_by {A} (key : A -> Z) (x : A) (l : list A) : list A :=
  match l with
  | [] => [x]
  | y :: rest => if key x <=? key y then x :: y :: rest else y :: insert_by key x rest
  end.

Fixpoint order_by {A} (key : A -> Z) (l : list A) : list A :=
  match l with
  | [] => []
  | x :: rest => insert_by key x (order_by key rest)
  end.

Definition mem (i : Z) (l : list Z) : bool := existsb (Z.eqb i) l.

(** What a Python call yields: a value or an exception that leaves it. *)
Inductive pyresult (A : Type) : Type :=
| Returned (a : A)
| Raised (exn : string).
Arguments Returned {A} a.
Arguments Raised {A} exn.

Section Engine.

(** [json.dumps], [json.loads] on a stored option list and [str] are
    taken as given. *)
Variable json_dumps : pyval -> string.
Variable json_loads : string -> list string.
Variable py_str : pyval -> string.

(** ** Survey schema engine *)

(** [get_survey_fields]: the fields of one survey, by [field_order]. *)
Definition get_survey_fields_query (survey_id : Z) : Statement FieldTuple :=
  fun db =>
  (map (fun sf => mkFieldTuple (sf_field_id sf) (sf_field_label sf) (sf_field_type sf)
                    (sf_field_options sf) (sf_is_required sf) (sf_field_order sf))
     (order_by sf_field_order
        (filter (fun sf => sf_survey_id sf =? survey_id) (Survey_Fields db))), db).

Definition get_survey_fields (survey_id : Z) (db : Store) : list FieldTuple :=
  rows_or_empty (fst (execute_query (get_survey_fields_query survey_id) false true false db)).

(** [json.dumps(field.get('field_options', [])) if field.get('field_options') else None] *)
Definition dump_field_options (field : TargetField) : option string :=
  match tf_field_options field with
  | Some (o :: os) => Some (json_dumps (PyList (o :: os)))
  | _ => None
  end.

(** [field.get('is_required', False)] *)
Definition get_is_required (field : TargetField) : bool :=
  match tf_is_required field with
  | Some b => b
  | None => false
  end.

(** The [UPDATE Survey_Fields ... WHERE field_id = %s] of [update_survey]. *)
Definition update_field_stmt (field : TargetField) (fid i : Z) (db : Store) : Store :=
  with_Survey_Fields
    (map (fun sf =>
       if sf_field_id sf =? fid
       then mkSurveyField (sf_field_id sf) (sf_survey_id sf)
              (tf_field_label field) (tf_field_type field)
              (dump_field_options field) (get_is_required field) i
       else sf))
    (Survey_Fields_seq db) db.

(** The [INSERT INTO Survey_Fields] of [update_survey]. *)
Definition insert_field_stmt (survey_id : Z) (field : TargetField) (i : Z) (db : Store) : Store :=
  with_Survey_Fields
    (fun t => t ++ [mkSurveyField (Survey_Fields_seq db) survey_id
                      (tf_field_label field) (tf_field_type field)
                      (dump_field_options field) (get_is_required field) i])
    (Survey_Fields_seq db + 1) db.

(** [for i, field in enumerate(fields)], from index [i]. *)
Fixpoint update_survey_loop (survey_id i : Z) (fields : list TargetField) (db : Store) : Store :=
  match fields with
  | [] => db
  | field :: rest =>
      let db' :=
        match tf_field_id field with
        | Some fid => update_field_stmt field fid i db
        | None => insert_field_stmt survey_id field i db
        end in
      update_survey_loop survey_id (i + 1) rest db'
  end.

(** [{f['field_id'] for f in fields if 'field_id' in f}] *)
Definition updated_field_ids (fields : list TargetField) : list Z :=
  flat_map (fun f => match tf_field_id f with Some fid => [fid] | None => [] end) fields.

Definition existing_field_ids (survey_id : Z) (db : Store) : list Z :=
  map sf_field_id (filter (fun sf => sf_survey_id sf =? survey_id) (Survey_Fields db)).

(** [update_survey]: one transaction; the survey row is updated, the
    fields of the survey whose id is not in the target list are deleted,
    then every target entry is written with its position as order. *)
Definition update_survey (survey_id : Z) (survey_name : string) (is_active : bool)
    (fields : list TargetField) (db : Store) : bool * Store :=
  let db1 := with_Surveys
      (map (fun s => if s_survey_id s =? survey_id
                     then mkSurvey (s_survey_id s) survey_name (s_created_by s)
                            (s_created_at s) is_active
                     else s)) db in
  let fields_to_delete :=
      filter (fun fid => negb (mem fid (updated_field_ids fields)))
             (existing_field_ids survey_id db1) in
  let db2 :=
      match fields_to_delete with
      | [] => db1
      | _ :: _ =>
          with_Survey_Fields
            (filter (fun sf => negb (mem (sf_field_id sf) fields_to_delete)))
            (Survey_Fields_seq db1) db1
      end in
  (true, update_survey_loop survey_id 0 fields db2).

(** The five [DELETE] statements of [delete_survey], in source order. *)
Definition delete_response_details_of (survey_id : Z) (db : Store) : Store :=
  with_Response_Details
    (filter (fun rd =>
       negb (mem (rd_response_id rd)
               (map r_response_id
                  (filter (fun r => r_survey_id r =? survey_id) (Responses db))))))
    (Response_Details_seq db) db.

Definition delete_responses_of (survey_id : Z) (db : Store) : Store :=
  with_Responses (filter (fun r => negb (r_survey_id r =? survey_id))) (Responses_seq db) db.

Definition delete_fields_of (survey_id : Z) (db : Store) : Store :=
  with_Survey_Fields (filter (fun sf => negb (sf_survey_id sf =? survey_id)))
    (Survey_Fields_seq db) db.

Definition delete_links_of (survey_id : Z) (db : Store) : Store :=
  with_SurveyGovernorate (filter (fun sg => negb (sg_survey_id sg =? survey_id))) db.

Definition delete_survey_row (survey_id : Z) (db : Store) : Store :=
  with_Surveys (filter (fun s => negb (s_survey_id s =? survey_id))) db.

(** The statements [delete_survey] hands to its cursor, first to last. *)
Definition delete_survey_statements (survey_id : Z) : list (Store -> Store) :=
  [delete_response_details_of survey_id;
   delete_responses_of survey_id;
   delete_fields_of survey_id;
   delete_links_of survey_id;
   delete_survey_row survey_id].

(** One cursor, one transaction: every statement runs on the store the
    statement before it left.  The stores are listed as they come. *)
Fixpoint cursor_execute (statements : list (Store -> Store)) (db : Store) : list Store :=
  match statements with
  | [] => []
  | statement :: rest => statement db :: cursor_execute rest (statement db)
  end.

(** [delete_survey]: the five statements, then [commit] and [True]. *)
Definition delete_survey (survey_id : Z) (db : Store) : bool * Store :=
  (true, last (cursor_execute (delete_survey_statements survey_id) db) db).

(** ** Response engine *)

(** [INSERT INTO Responses ... NOW() ... RETURNING response_id] *)
Definition save_response_stmt (survey_id user_id region_id : Z) (is_completed : bool)
    (now : Z) : Statement Z :=
  fun db =>
  ([Responses_seq db],
   with_Responses
     (fun t => t ++ [mkResponse (Responses_seq db) survey_id user_id region_id
                       is_completed now])
     (Responses_seq db + 1) db).

(** [result['response_id']]: only a row can be subscripted by a column
    name. *)
Definition subscript_response_id (result : qresult Z) : pyresult (option Z) :=
  match result with
  | QRow response_id => Returned (Some response_id)
  | QTrue => Raised "TypeError: 'bool' object is not subscriptable"
  | QNone => Raised "TypeError: 'NoneType' object is not subscriptable"
  | QRows _ => Raised "TypeError: list indices must be integers or slices, not str"
  end.

(** [save_response]: the statement is run with [fetch_one=True,
    commit=True]; the result is subscripted when it is true. *)
Definition save_response (survey_id user_id region_id : Z) (is_completed : bool)
    (now : Z) (db : Store) : pyresult (option Z) * Store :=
  let '(result, db') :=
    execute_query (save_response_stmt survey_id user_id region_id is_completed now)
      true false true db in
  (if qtruthy result then subscript_response_id result else Returned None, db').

(** [save_response_detail]: the value goes through [str] once more. *)
Definition save_response_detail (response_id fid : Z) (answer_value : string)
    (db : Store) : qresult unit * Store :=
  execute_query
    (fun d => ([],
       with_Response_Details
         (fun t => t ++ [mkResponseDetail (Response_Details_seq d) response_id fid
                           (py_str (PyStr answer_value))])
         (Response_Details_seq d + 1) d))
    false false true db.


(** [has_completed_survey_today]: [now] is the time the query runs. *)
Definition has_completed_survey_today_query (user_id survey_id now : Z) : Statement Z :=
  fun db =>
  (map r_response_id
     (filter (fun r =>
        (r_user_id r =? user_id) && (r_survey_id r =? survey_id)
        && r_is_completed r && (date_of (r_submission_date r) =? date_of now))
        (Responses db)), db).

Definition has_completed_survey_today (user_id survey_id now : Z) (db : Store) : bool :=
  qtruthy (fst (execute_query (has_completed_survey_today_query user_id survey_id now)
                  true false false db)).

(** ** Audit log *)



(** ** Organisation hierarchy: governorates *)


(** What a view shows for one submitted form. *)
Inductive shown : Type :=
| StError (msg : string)
| StWarning (msg : string)
| StSuccess (msg : string)
| StNothing.



(** ** Employee view: the survey form *)

(** The values the form widgets hold, by field id. *)
Record Widgets := mkWidgets {
  text_input : Z -> string;
  number_input : Z -> Q;
  selectbox : Z -> list string -> option string;
  checkbox : Z -> bool;
  date_input : Z -> Z
}.

(** [render_field]: the widget of the field type gives the answer; an
    unknown type gives [None]. *)
Definition render_field (w : Widgets) (fid : Z) (label type : string)
    (options : option string) (required : bool) : pyval :=
  if String.eqb type "text" then PyStr (text_input w fid)
  else if String.eqb type "number" then PyNum (number_input w fid)
  else if String.eqb type "dropdown" then
    let options_list :=
      match options with
      | Some o => if String.eqb o "" then [] else json_loads o
      | None => []
      end in
    match selectbox w fid options_list with
    | Some choice => PyStr choice
    | None => PyNone
    end
  else if String.eqb type "checkbox" then PyBool (checkbox w fid)
  else if String.eqb type "date" then PyDate (date_input w fid)
  else PyNone.

(** [check_required_fields]: the labels of the required fields whose
    answer is not true. *)
Fixpoint check_required_fields (fields : list FieldTuple) (answers : dict) : list string :=
  match fields with
  | [] => []
  | field :: rest =>
      if is_required field && negb (truthy (dict_get answers (field_id field)))
      then field_label field :: check_required_fields rest answers
      else check_required_fields rest answers
  end.

(** [save_response_details]: one detail per answer that is not [None],
    in the order of the dict. *)
Fixpoint save_response_details (response_id : Z) (answers : dict) (db : Store) : Store :=
  match answers with
  | [] => db
  | (fid, answer) :: rest =>
      let db' :=
        match answer with
        | PyNone => db
        | _ => snd (save_response_detail response_id fid (py_str answer) db)
        end in
      save_response_details response_id rest db'
  end.

(** How one call of [process_survey_submission] ends: one of its three
    [st.error] returns, an exception that leaves it, or the submission
    message. *)
Inductive submission : Type :=
| MissingRequiredFields (labels : list string)
| AlreadyCompletedToday
| SaveFailed
| Propagated (exn : string)
| Submitted (is_completed : bool).

(** The text shown by [st.error] for the three rejections. *)
Definition error_text (r : submission) : option string :=
  match r with
  | MissingRequiredFields labels =>
      Some ("الحقول التالية مطلوبة: " ++ String.concat ", " labels)%string
  | AlreadyCompletedToday =>
      Some "لقد قمت بإكمال هذا الاستبيان اليوم بالفعل. يمكنك إكماله مرة أخرى غدًا."
  | SaveFailed => Some "حدث خطأ أثناء حفظ البيانات"
  | _ => None
  end.

(** [process_survey_submission]: [user_id] is the session's user,
    [now_check] the time of the completion query and [now_save] the time
    of the insert. *)
Definition process_survey_submission (user_id survey_id region_id : Z)
    (fields : list FieldTuple) (answers : dict) (is_completed : bool)
    (now_check now_save : Z) (db : Store) : submission * Store :=
  let missing_fields := check_required_fields fields answers in
  if match missing_fields with [] => false | _ :: _ => true end && is_completed
  then (MissingRequiredFields missing_fields, db)
  else if is_completed && has_completed_survey_today user_id survey_id now_check db
  then (AlreadyCompletedToday, db)
  else
    match save_response survey_id user_id region_id is_completed now_save db with
    | (Raised exn, db1) => (Propagated exn, db1)
    | (Returned None, db1) => (SaveFailed, db1)
    | (Returned (Some response_id), db1) =>
        if response_id =? 0 then (SaveFailed, db1)
        else (Submitted is_completed, save_response_details response_id answers db1)
    end.

(** [display_survey_form]: the answers are read from the widgets field
    by field; one of the two buttons starts the submission, and the
    submit button alone marks it completed. *)
Definition collect_answers (w : Widgets) (fields : list FieldTuple) : dict :=
  fold_left
    (fun answers field =>
       dict_set (field_id field)
         (render_field w (field_id field) (field_label field) (field_type field)
            (field_options field) (is_required field))
         answers)
    fields [].

Definition display_survey_form (w : Widgets) (submitted save_draft : bool)
    (user_id survey_id region_id : Z) (fields : list FieldTuple)
    (now_check now_save : Z) (db : Store) : option submission * Store :=
  let answers := collect_answers w fields in
  if submitted || save_draft then
    let '(r, db') :=
      process_survey_submission user_id survey_id region_id fields answers submitted
        now_check now_save db in
    (Some r, db')
  else (None, db).

End Engine.

(** * Further operations of [database.py] and of the views *)

(** The store keeps no counter for [Surveys] and [HealthAdministrations]:
    where a statement inserts into one of them, the id the serial column
    draws is an argument of the model.  The column [is_active] is not
    named by the insert of [save_survey]; the value the table gives it
    is an argument too. *)

(** ** Organisation hierarchy *)

(** [get_governorates_list] *)
Definition get_governorates_list (db : Store) : list Governorate :=
  rows_or_empty (fst (execute_query (fun d => (Governorates d, d)) false true false db)).


(** [get_health_admin_by_id] *)
Definition get_health_admin_by_id (admin_id : Z) (db : Store) : qresult HealthAdministration :=
  fst (execute_query
         (fun d => (filter (fun ha => ha_admin_id ha =? admin_id) (HealthAdministrations d), d))
         true false false db).

Definition with_HealthAdministrations
    (f : list HealthAdministration -> list HealthAdministration) (db : Store) : Store :=
  mkStore (Users db) (f (HealthAdministrations db)) (Governorates db) (Surveys db)
    (Survey_Fields db) (SurveyGovernorate db) (UserSurveys db) (Responses db)
    (Response_Details db) (AuditLog db)
    (Governorates_seq db) (Survey_Fields_seq db) (Responses_seq db)
    (Response_Details_seq db) (AuditLog_seq db).

Definition with_Users (f : list User -> list User) (db : Store) : Store :=
  mkStore (f (Users db)) (HealthAdministrations db) (Governorates db) (Surveys db)
    (Survey_Fields db) (SurveyGovernorate db) (UserSurveys db) (Responses db)
    (Response_Details db) (AuditLog db)
    (Governorates_seq db) (Survey_Fields_seq db) (Responses_seq db)
    (Response_Details_seq db) (AuditLog_seq db).

(** [update_governorate]: one [UPDATE Governorates], committed. *)
Definition update_governorate (governorate_id : Z) (new_name new_desc : string)
    (db : Store) : qresult unit * Store :=
  execute_query
    (fun d => ([],
       with_Governorates
         (map (fun g => if g_governorate_id g =? governorate_id
                        then mkGovernorate (g_governorate_id g) new_name new_desc
                        else g))
         (Governorates_seq d) d))
    false false true db.

(** [delete_governorate]: refused while a health administration refers
    to the governorate. *)
Definition delete_governorate (governorate_id : Z) (db : Store) : bool * Store :=
  let has_regions :=
    fst (execute_query
           (fun d => (map ha_admin_id
                        (filter (fun ha => ha_governorate_id ha =? governorate_id)
                           (HealthAdministrations d)), d))
           true false false db) in
  if qtruthy has_regions then (false, db)
  else
    let '(ok, db') :=
      execute_query
        (fun d => (@nil unit,
           with_Governorates
             (filter (fun g => negb (g_governorate_id g =? governorate_id)))
             (Governorates_seq d) d))
        false false true db in
    (qtruthy ok, db').

(** [add_health_admin]: the pair of name and governorate is looked up
    first; [admin_id] is the id the serial column draws. *)
Definition add_health_admin (admin_id : Z) (admin_name description : string)
    (governorate_id : Z) (db : Store) : bool * Store :=
  let existing :=
    fst (execute_query
           (fun d => (map ha_admin_id
                        (filter (fun ha => String.eqb (ha_admin_name ha) admin_name
                                           && (ha_governorate_id ha =? governorate_id))
                           (HealthAdministrations d)), d))
           true false false db) in
  if qtruthy existing then (false, db)
  else
    let '(ok, db') :=
      execute_query
        (fun d => (@nil unit,
           with_HealthAdministrations
             (fun t => t ++ [mkHealthAdministration admin_id admin_name description
                               governorate_id]) d))
        false false true db in
    (qtruthy ok, db').

(** [update_health_admin]: one [UPDATE HealthAdministrations], committed. *)
Definition update_health_admin (admin_id : Z) (new_name new_desc : string) (new_gov_id : Z)
    (db : Store) : qresult unit * Store :=
  execute_query
    (fun d => ([],
       with_HealthAdministrations
         (map (fun ha => if ha_admin_id ha =? admin_id
                         then mkHealthAdministration (ha_admin_id ha) new_name new_desc
                                new_gov_id
                         else ha)) d))
    false false true db.

(** [delete_health_admin]: refused while a user is assigned to it. *)
Definition delete_health_admin (admin_id : Z) (db : Store) : bool * Store :=
  let has_users :=
    fst (execute_query
           (fun d => (map u_user_id
                        (filter (fun u => opt_eqb (u_assigned_region u) admin_id) (Users d)), d))
           true false false db) in
  if qtruthy has_users then (false, db)
  else
    let '(ok, db') :=
      execute_query
        (fun d => (@nil unit,
           with_HealthAdministrations
             (filter (fun ha => negb (ha_admin_id ha =? admin_id))) d))
        false false true db in
    (qtruthy ok, db').



(** ** Scope resolution: the listings of the governorate admin *)

(** [get_governorate_surveys]: the surveys linked to a governorate,
    active or not; [str_ts] is [str] on a timestamp.  The query has no
    [ORDER BY]: the order of the rows below means nothing. *)
Definition get_governorate_surveys (str_ts : Z -> string) (governorate_id : Z) (db : Store)
    : list (Z * string * string * bool) :=
  rows_or_empty (fst (execute_query
    (fun d =>
       (flat_map (fun sg =>
          flat_map (fun s =>
            if sg_governorate_id sg =? governorate_id
            then [(s_survey_id s, s_survey_name s, str_ts (s_created_at s), s_is_active s)]
            else [])
          (filter (fun s => sg_survey_id sg =? s_survey_id s) (Surveys d)))
        (SurveyGovernorate d), d))
    false true false db)).

(** [get_governorate_employees]: the users of role [employee] assigned
    to a health administration of the governorate. *)
Definition get_governorate_employees (governorate_id : Z) (db : Store)
    : list (Z * string * string) :=
  rows_or_empty (fst (execute_query
    (fun d =>
       (flat_map (fun u =>
          flat_map (fun ha =>
            if String.eqb (u_role u) "employee" && (ha_governorate_id ha =? governorate_id)
            then [(u_user_id u, u_username u, ha_admin_name ha)] else [])
          (filter (fun ha => opt_eqb (u_assigned_region u) (ha_admin_id ha))
                  (HealthAdministrations d)))
        (Users d), d))
    false true false db)).

(** The save button of [edit_governorate_survey]
    ([governorate_admin_views.py]): one [UPDATE Surveys SET is_active],
    committed.  The row is rewritten where it stands in the list; where
    the database keeps it is its own matter, and nothing is made of the
    position. *)
Definition edit_governorate_survey_save (survey_id : Z) (is_active : bool) (db : Store) : Store :=
  with_Surveys
    (map (fun s => if s_survey_id s =? survey_id
                   then mkSurvey (s_survey_id s) (s_survey_name s) (s_created_by s)
                          (s_created_at s) is_active
                   else s)) db.

(** [update_user]: one [UPDATE Users], committed. *)
Definition update_user (user_id : Z) (username role : string) (region_id : option Z)
    (db : Store) : qresult unit * Store :=
  execute_query
    (fun d => ([],
       with_Users
         (map (fun u => if u_user_id u =? user_id
                        then mkUser (u_user_id u) username role region_id
                        else u)) d))
    false false true db.

(** [list({k: v for ...}.keys())]: the keys in order of first occurrence. *)
Definition dict_keys (keys : list Z) : list Z :=
  fold_left (fun acc k => if mem k acc then acc else acc ++ [k]) keys [].

(** The save button of [edit_employee] ([governorate_admin_views.py]).
    The employee is fetched first; the surveys offered are those of the
    governorate, the grants among them are preselected, and
    [multiselect options default] is what the widget returns; with no
    survey to offer the selection is empty.  [selected_admin] is the
    choice of the select box.  The user is rewritten as an employee and
    the grants are replaced by the selection. *)
Definition edit_employee_save (str_ts : Z -> string)
    (multiselect : list Z -> list Z -> list Z)
    (user_id governorate_id : Z) (selected_admin : option Z) (db : Store) : shown * Store :=
  match filter (fun u => u_user_id u =? user_id) (Users db) with
  | [] => (StError "الموظف غير موجود", db)
  | employee :: _ =>
      let surveys := get_governorate_surveys str_ts governorate_id db in
      let allowed_survey_ids := map fst (get_user_allowed_surveys user_id db) in
      let survey_ids := map (fun t => fst (fst (fst t))) surveys in
      let valid_allowed_survey_ids := filter (fun sid => mem sid survey_ids) allowed_survey_ids in
      let selected_surveys :=
        match surveys with
        | [] => []
        | _ :: _ => multiselect (dict_keys survey_ids) valid_allowed_survey_ids
        end in
      let '(_, db1) := update_user user_id (u_username employee) "employee" selected_admin db in
      let '(ok, db2) := update_user_allowed_surveys user_id selected_surveys db1 in
      if ok then (StSuccess "تم تحديث بيانات الموظف بنجاح", db2) else (StNothing, db2)
  end.

(** ** Responses: reading the answers *)

(** One row of [get_response_details]: the tuple
    [(detail_id, field_id, field_label, field_type, field_options, answer_value)]. *)
Record DetailTuple := mkDetailTuple {
  dt_detail_id : Z;
  dt_field_id : Z;
  dt_field_label : string;
  dt_field_type : string;
  dt_field_options : option string;
  dt_answer_value : string
}.

(** [get_response_details]: the details of a response, each joined to
    its field.  The query has no [ORDER BY]: the order of the rows below
    means nothing. *)
Definition get_response_details (response_id : Z) (db : Store) : list DetailTuple :=
  rows_or_empty (fst (execute_query
    (fun d =>
       (flat_map (fun rd =>
          flat_map (fun sf =>
            if rd_response_id rd =? response_id
            then [mkDetailTuple (rd_detail_id rd) (rd_field_id rd) (sf_field_label sf)
                    (sf_field_type sf) (sf_field_options sf) (rd_answer_value rd)]
            else [])
          (filter (fun sf => rd_field_id rd =? sf_field_id sf) (Survey_Fields d)))
        (Response_Details d), d))
    false true false db)).

(** [get_survey_by_id] *)
Definition get_survey_by_id (survey_id : Z) (db : Store) : qresult Survey :=
  fst (execute_query
         (fun d => (filter (fun s => s_survey_id s =? survey_id) (Surveys d), d))
         true false false db).

(** What [display_single_survey] ([employee_views.py]) comes to: an
    error when the survey is not found, a warning when the user has
    completed it today, the form otherwise. *)
Inductive survey_display : Type :=
| SurveyNotFound
| CompletedTodayWarning
| FormShown (fields : list FieldTuple).

Definition display_single_survey (user_id survey_id now : Z) (db : Store) : survey_display :=
  if negb (qtruthy (get_survey_by_id survey_id db)) then SurveyNotFound
  else if has_completed_survey_today user_id survey_id now db then CompletedTodayWarning
  else FormShown (get_survey_fields survey_id db).

(** ** Survey creation *)


Section SaveSurvey.

Variable json_dumps : pyval -> string.




End SaveSurvey.

(** ** User deletion *)


(** * Derived notions and sample data *)

(** ** Visibility as the specification words it *)

(** The rule the specification words for an employee: the survey is
    active and either linked to the governorate of the employee's health
    administration or granted to the employee in [UserSurveys]. *)
Definition linked_by_governorate (db : Store) (uid sid : Z) : Prop :=
  exists u ha sg,
    In u (Users db) /\ In ha (HealthAdministrations db) /\
    In sg (SurveyGovernorate db) /\
    u_user_id u = uid /\ u_assigned_region u = Some (ha_admin_id ha) /\
    ha_governorate_id ha = sg_governorate_id sg /\ sg_survey_id sg = sid.

(** The employee holds a row of [UserSurveys] for the survey. *)
Definition granted (db : Store) (uid sid : Z) : Prop :=
  In (mkUserSurvey uid sid) (UserSurveys db).

(** The survey exists under that name and is active. *)
Definition active_survey (db : Store) (sid : Z) (name : string) : Prop :=
  exists s, In s (Surveys db) /\ s_survey_id s = sid /\
            s_survey_name s = name /\ s_is_active s = true.

(** Active, and linked or granted. *)
Definition visible_by_union_rule (db : Store) (uid sid : Z) (name : string) : Prop :=
  active_survey db sid name /\ (linked_by_governorate db uid sid \/ granted db uid sid).

(** ** A sample store *)

(** A small store: two governorates, one health administration under
    Cairo with one employee, a survey linked to Cairo with two fields and
    one completed response, and a survey linked to Giza only that the
    employee holds a grant for. *)
Definition cairo_db : Store :=
  mkStore
    [mkUser 1 "u1" "employee" (Some 10)]
    [mkHealthAdministration 10 "Cairo-Central" "" 1]
    [mkGovernorate 1 "Cairo" ""; mkGovernorate 2 "Giza" ""]
    [mkSurvey 7 "Weekly Health Check" 99 0 true; mkSurvey 8 "Giza Census" 99 0 true]
    [mkSurveyField 1 7 "A" "text" None true 0; mkSurveyField 2 7 "B" "text" None false 1]
    [mkSurveyGovernorate 7 1; mkSurveyGovernorate 8 2]
    [mkUserSurvey 1 8]
    [mkResponse 1 7 1 10 true 1000]
    [mkResponseDetail 1 1 1 "a"; mkResponseDetail 2 1 2 "b"]
    []
    3 3 2 3 1.

(** ** Answer edits *)



(** ** Submissions *)

(** The fields of survey 7 of [cairo_db], as [get_survey_fields] lists them. *)
Definition cairo_fields : list FieldTuple :=
  [mkFieldTuple 1 "A" "text" None true 0; mkFieldTuple 2 "B" "text" None false 1].

(** A [str] for the sample runs: strings as they are, booleans by name. *)
Definition plain_str (v : pyval) : string :=
  match v with
  | PyStr s => s
  | PyBool true => "True"
  | PyBool false => "False"
  | _ => "None"
  end.

(** The answer [display_survey_form] stores for a field. *)
Definition answer_of (json_loads : string -> list string) (w : Widgets) (field : FieldTuple)
    : pyval :=
  render_field json_loads w (field_id field) (field_label field) (field_type field)
    (field_options field) (is_required field).

(** The answers the presence check takes for missing. *)
Definition falsy_answer (answers : dict) (fid : Z) : Prop :=
  dict_lookup fid answers = None
  \/ dict_lookup fid answers = Some PyNone
  \/ dict_lookup fid answers = Some (PyStr "")
  \/ dict_lookup fid answers = Some (PyBool false)
  \/ exists q, dict_lookup fid answers = Some (PyNum q) /\ Qnum q = 0.

(** A form with a required checkbox and a required number field. *)
Definition checkbox_fields : list FieldTuple :=
  [mkFieldTuple 5 "Vaccinated" "checkbox" None true 0;
   mkFieldTuple 6 "Doses" "number" None true 1].

(** Widgets nobody touched: empty text, zero, no choice, unchecked. *)
Definition idle_widgets : Widgets :=
  mkWidgets (fun _ => "") (fun _ => Qmake 0 1) (fun _ _ => None) (fun _ => false) (fun _ => 0).

(** The completed Responses of a user for a survey on a day. *)
Definition completed_on (user_id survey_id day : Z) (r : Response) : bool :=
  (r_user_id r =? user_id) && (r_survey_id r =? survey_id)
  && r_is_completed r && (date_of (r_submission_date r) =? day).

(** How many there are. *)
Definition completed_count (db : Store) (user_id survey_id day : Z) : nat :=
  List.length (filter (completed_on user_id survey_id day) (Responses db)).

(** At most one completed Response per user, survey and day. *)
Definition one_completed_per_day (db : Store) : Prop :=
  forall user_id survey_id day, (completed_count db user_id survey_id day <= 1)%nat.

(** ** Reconciliation *)

(** What the [UPDATE] of one target entry makes of a row. *)
Definition write_field (json_dumps : pyval -> string) (field : TargetField) (fid i : Z)
    (sf : SurveyField) : SurveyField :=
  if sf_field_id sf =? fid
  then mkSurveyField (sf_field_id sf) (sf_survey_id sf)
         (tf_field_label field) (tf_field_type field)
         (dump_field_options json_dumps field) (get_is_required field) i
  else sf.

(** What the updates of a target list, from index [i], make of a row. *)
Fixpoint apply_updates (json_dumps : pyval -> string) (i : Z) (fields : list TargetField)
    (sf : SurveyField) : SurveyField :=
  match fields with
  | [] => sf
  | field :: rest =>
      apply_updates json_dumps (i + 1) rest
        match tf_field_id field with
        | Some fid => write_field json_dumps field fid i sf
        | None => sf
        end
  end.

(** The row a target entry describes, under the id [fid]. *)
Definition target_row (json_dumps : pyval -> string) (survey_id : Z) (field : TargetField)
    (fid i : Z) : SurveyField :=
  mkSurveyField fid survey_id (tf_field_label field) (tf_field_type field)
    (dump_field_options json_dumps field) (get_is_required field) i.

(** The rows the inserts of a target list add, ids drawn from [n] on. *)
Fixpoint inserted_rows (json_dumps : pyval -> string) (survey_id i n : Z)
    (fields : list TargetField) : list SurveyField :=
  match fields with
  | [] => []
  | field :: rest =>
      match tf_field_id field with
      | Some _ => inserted_rows json_dumps survey_id (i + 1) n rest
      | None =>
          target_row json_dumps survey_id field n i
          :: inserted_rows json_dumps survey_id (i + 1) (n + 1) rest
      end
  end.

(** The rows the entries that carry an id describe. *)
Fixpoint updated_rows (json_dumps : pyval -> string) (survey_id i : Z)
    (fields : list TargetField) : list SurveyField :=
  match fields with
  | [] => []
  | field :: rest =>
      match tf_field_id field with
      | Some fid =>
          target_row json_dumps survey_id field fid i
          :: updated_rows json_dumps survey_id (i + 1) rest
      | None => updated_rows json_dumps survey_id (i + 1) rest
      end
  end.

(** The rows a target list describes, in its order: an entry keeps its
    id or takes the next id drawn, and its order is its position. *)
Fixpoint target_rows (json_dumps : pyval -> string) (survey_id i n : Z)
    (fields : list TargetField) : list SurveyField :=
  match fields with
  | [] => []
  | field :: rest =>
      match tf_field_id field with
      | Some fid =>
          target_row json_dumps survey_id field fid i
          :: target_rows json_dumps survey_id (i + 1) n rest
      | None =>
          target_row json_dumps survey_id field n i
          :: target_rows json_dumps survey_id (i + 1) (n + 1) rest
      end
  end.

(** The tuple [get_survey_fields] makes of a row. *)
Definition field_tuple (sf : SurveyField) : FieldTuple :=
  mkFieldTuple (sf_field_id sf) (sf_field_label sf) (sf_field_type sf)
    (sf_field_options sf) (sf_is_required sf) (sf_field_order sf).

(** [existing_field_ids - updated_field_ids] *)
Definition fields_to_delete (survey_id : Z) (fields : list TargetField) (db : Store) : list Z :=
  filter (fun fid => negb (mem fid (updated_field_ids fields)))
         (existing_field_ids survey_id db).

(** The rows the [DELETE] of [update_survey] leaves. *)
Definition kept_rows (survey_id : Z) (fields : list TargetField) (db : Store)
    : list SurveyField :=
  filter (fun sf => negb (mem (sf_field_id sf) (fields_to_delete survey_id fields db)))
         (Survey_Fields db).

(** A [json.dumps] for the sample runs. *)
Definition no_dumps (v : pyval) : string :=
  match v with
  | PyList l => String.concat "," l
  | _ => ""
  end.

(** B kept under its id as a required dropdown with options, C new
    with no [is_required] key. *)
Definition target_B_options_C : list TargetField :=
  [mkTargetField (Some 2) "B" "dropdown" (Some ["x"; "y"]) (Some true);
   mkTargetField None "C" "text" (Some []) None].

(** The target list of the scenario: B kept under its id, C new. *)
Definition target_B_C : list TargetField :=
  [mkTargetField (Some 2) "B" "text" None (Some false);
   mkTargetField None "C" "text" None (Some true)].

(** Orders on rows by an integer key. *)
Definition key_le {A} (key : A -> Z) (a b : A) : Prop := key a <= key b.
Definition key_lt {A} (key : A -> Z) (a b : A) : Prop := key a < key b.

(** ** Integrity of the organisation hierarchy *)

(** Every health administration refers to a governorate of the store. *)
Definition administrations_refer_to_governorates (db : Store) : Prop :=
  forall ha, In ha (HealthAdministrations db) ->
    exists g, In g (Governorates db) /\ g_governorate_id g = ha_governorate_id ha.

(** Every assigned user refers to a health administration of the store. *)
Definition users_refer_to_administrations (db : Store) : Prop :=
  forall u r, In u (Users db) -> u_assigned_region u = Some r ->
    exists ha, In ha (HealthAdministrations db) /\ ha_admin_id ha = r.

Definition ha_name_in_governorate (ha : HealthAdministration) : string * Z :=
  (ha_admin_name ha, ha_governorate_id ha).

(** Health administration ids are unique, and so are the names within
    a governorate. *)
Definition health_administrations_wf (db : Store) : Prop :=
  NoDup (map ha_admin_id (HealthAdministrations db))
  /\ NoDup (map ha_name_in_governorate (HealthAdministrations db)).

(** ** Survey creation *)



(** ** The employee editor of the governorate admin *)

(** A multiselect that returns its preselection, as far as it is on
    offer. *)
Definition keep_default (options default : list Z) : list Z :=
  filter (fun sid => mem sid options) default.

(** ** Saving and reading answers *)

(** [answer is not None] *)
Definition is_not_none (answer : pyval) : bool :=
  match answer with
  | PyNone => false
  | _ => true
  end.

(** The rows [save_response_details] inserts, ids drawn from [n] on. *)
Fixpoint saved_details (py_str : pyval -> string) (response_id n : Z) (answers : dict)
    : list ResponseDetail :=
  match answers with
  | [] => []
  | (fid, answer) :: rest =>
      if is_not_none answer
      then mkResponseDetail n response_id fid (py_str (PyStr (py_str answer)))
           :: saved_details py_str response_id (n + 1) rest
      else saved_details py_str response_id n rest
  end.

(** ** A target list that names a field of another survey *)

(** [cairo_db] with a field of survey 8 added, and a target list for
    survey 7 that keeps A and B and carries the id of that field. *)
Definition two_survey_db : Store :=
  with_Survey_Fields (fun t => t ++ [mkSurveyField 3 8 "District" "text" None true 0]) 4
    cairo_db.

Definition target_with_foreign_id : list TargetField :=
  [mkTargetField (Some 1) "A" "text" None (Some true);
   mkTargetField (Some 2) "B" "text" None (Some false);
   mkTargetField (Some 3) "Overwritten" "number" (Some ["x"; "y"]) None].

(** * Properties *)

(** ** Generic facts on the list operators the statements are made of *)

Lemma execute_query_fetch_all {R} (q : Statement R) (db : Store) :
  rows_or_empty (fst (execute_query q false true false db)) = fst (q db).
Proof.
  unfold execute_query. destruct (q db) as [rows db']. reflexivity.
Qed.

Lemma flat_map_nil_ext {A B} (f : A -> list B) (l : list A) :
  (forall x, In x l -> f x = []) -> flat_map f l = [].
Proof.
  induction l as [|a l IH]; intros H; simpl; [reflexivity|].
  rewrite (H a (or_introl eq_refl)). simpl. apply IH.
  intros x Hx. apply H. now right.
Qed.

Lemma filter_nil_ext {A} (p : A -> bool) (l : list A) :
  (forall x, In x l -> p x = false) -> filter p l = [].
Proof.
  induction l as [|a l IH]; intros H; simpl; [reflexivity|].
  rewrite (H a (or_introl eq_refl)). apply IH.
  intros x Hx. apply H. now right.
Qed.

Lemma filter_id_ext {A} (p : A -> bool) (l : list A) :
  (forall x, In x l -> p x = true) -> filter p l = l.
Proof.
  induction l as [|a l IH]; intros H; simpl; [reflexivity|].
  rewrite (H a (or_introl eq_refl)). f_equal. apply IH.
  intros x Hx. apply H. now right.
Qed.

Lemma mem_In (i : Z) (l : list Z) : mem i l = true <-> In i l.
Proof.
  unfold mem. rewrite existsb_exists. split.
  - intros [x [Hx He]]. apply Z.eqb_eq in He. now subst.
  - intros H. exists i. split; [assumption | apply Z.eqb_refl].
Qed.

Lemma mem_not_In (i : Z) (l : list Z) : mem i l = false <-> ~ In i l.
Proof.
  rewrite <- mem_In. destruct (mem i l); split; intros H; congruence.
Qed.

(** A key that is unique in a table selects exactly its row. *)
Lemma filter_unique_key {A} (key : A -> Z) (l : list A) (x : A) :
  NoDup (map key l) -> In x l ->
  filter (fun y => key x =? key y) l = [x].
Proof.
  induction l as [|a l IH]; intros Hnd Hin; [contradiction|].
  simpl in Hnd. inversion Hnd as [|? ? Hnotin Hnd']; subst.
  simpl. destruct Hin as [-> | Hin].
  - rewrite Z.eqb_refl. f_equal. apply filter_nil_ext.
    intros y Hy. apply Z.eqb_neq. intros E. apply Hnotin.
    rewrite E. now apply in_map.
  - destruct (Z.eqb_spec (key x) (key a)) as [E|E].
    + exfalso. apply Hnotin. rewrite <- E. now apply in_map.
    + now apply IH.
Qed.

(** ** Scope resolution *)

(** C1 (as amended): the listing the employee dashboard uses,
    [get_allowed_surveys], returns a survey exactly when the survey is
    active and linked to the governorate of the employee's health
    administration; the grants of [UserSurveys] play no part in it: the
    listing is the same whatever that table holds.  The grants are read
    by [get_user_allowed_surveys] alone. *)
Theorem get_allowed_surveys_governorate_rule (db : Store) (uid sid : Z) (name : string) :
  (In (sid, name) (get_allowed_surveys uid db) <->
     active_survey db sid name /\ linked_by_governorate db uid sid)
  /\ (forall grants, get_allowed_surveys uid (with_UserSurveys grants db)
                     = get_allowed_surveys uid db).
Proof.
  split; [|intros grants; reflexivity].
  unfold get_allowed_surveys. rewrite execute_query_fetch_all. simpl.
  split.
  - intros H.
    apply in_flat_map in H. destruct H as [u [Hu H]].
    apply in_flat_map in H. destruct H as [ha [Hha H]].
    apply in_flat_map in H. destruct H as [sg [Hsg H]].
    apply in_flat_map in H. destruct H as [s [Hs H]].
    apply filter_In in Hha. destruct Hha as [Hha Eha].
    apply filter_In in Hsg. destruct Hsg as [Hsg Esg].
    apply filter_In in Hs. destruct Hs as [Hs Es].
    destruct (u_user_id u =? uid) eqn:Eu; simpl in H; [|contradiction].
    destruct (s_is_active s) eqn:Ea; simpl in H; [|contradiction].
    destruct H as [H|[]]. inversion H; subst sid name; clear H.
    apply Z.eqb_eq in Eu, Esg, Es.
    unfold opt_eqb in Eha. destruct (u_assigned_region u) as [r|] eqn:Er; [|discriminate].
    apply Z.eqb_eq in Eha. subst r.
    split.
    + exists s. auto.
    + exists u, ha, sg. repeat split; auto.
  - intros [[s [Hs [Eid [Ename Ea]]]] [u [ha [sg [Hu [Hha [Hsg [Eu [Er [Eg Esg]]]]]]]]]].
    apply in_flat_map. exists u. split; [assumption|].
    apply in_flat_map. exists ha. split.
    { apply filter_In. split; [assumption|]. rewrite Er. simpl. apply Z.eqb_refl. }
    apply in_flat_map. exists sg. split.
    { apply filter_In. split; [assumption|]. now apply Z.eqb_eq. }
    apply in_flat_map. exists s. split.
    { apply filter_In. split; [assumption|]. apply Z.eqb_eq. congruence. }
    rewrite Ea. replace (u_user_id u =? uid) with true by (symmetry; now apply Z.eqb_eq).
    simpl. left. congruence.
Qed.

(** C1 (as stated) fails: in [cairo_db] employee 1 holds a grant for the
    active survey 8, so the union rule makes it visible, yet the listing
    of the dashboard does not return it. *)
Lemma grant_alone_is_not_listed :
  visible_by_union_rule cairo_db 1 8 "Giza Census"
  /\ ~ In (8, "Giza Census") (get_allowed_surveys 1 cairo_db).
Proof.
  split.
  - split.
    + exists (mkSurvey 8 "Giza Census" 99 0 true). simpl. auto.
    + right. unfold granted. simpl. auto.
  - vm_compute. intros [H|[]]. discriminate H.
Qed.

(** ** Grants *)

Lemma fold_left_insert_grants (uid : Z) (survey_ids : list Z) (db : Store) :
  fold_left
    (fun d survey_id => with_UserSurveys (fun t => t ++ [mkUserSurvey uid survey_id]) d)
    survey_ids db
  = with_UserSurveys (fun t => t ++ map (mkUserSurvey uid) survey_ids) db.
Proof.
  revert db. induction survey_ids as [|sid rest IH]; intros db; simpl.
  - destruct db. unfold with_UserSurveys. simpl. now rewrite app_nil_r.
  - rewrite IH. unfold with_UserSurveys. simpl. now rewrite <- app_assoc.
Qed.

Lemma update_user_allowed_surveys_table (uid : Z) (survey_ids : list Z) (db : Store) :
  UserSurveys (snd (update_user_allowed_surveys uid survey_ids db))
  = filter (fun us => negb (us_user_id us =? uid)) (UserSurveys db)
    ++ map (mkUserSurvey uid) survey_ids.
Proof.
  unfold update_user_allowed_surveys. simpl.
  rewrite fold_left_insert_grants. reflexivity.
Qed.

Lemma update_user_allowed_surveys_Surveys (uid : Z) (survey_ids : list Z) (db : Store) :
  Surveys (snd (update_user_allowed_surveys uid survey_ids db)) = Surveys db.
Proof.
  unfold update_user_allowed_surveys. simpl.
  rewrite fold_left_insert_grants. reflexivity.
Qed.

(** The rows the grant query yields for the freshly inserted grants. *)
Lemma grant_rows_of_new (uid : Z) (surveys : list Survey) (survey_ids : list Z) :
  NoDup (map s_survey_id surveys) ->
  (forall sid, In sid survey_ids -> In sid (map s_survey_id surveys)) ->
  map fst
    (flat_map (fun us =>
       flat_map (fun s =>
         if us_user_id us =? uid then [(s_survey_id s, s_survey_name s)] else [])
       (filter (fun s => us_survey_id us =? s_survey_id s) surveys))
     (map (mkUserSurvey uid) survey_ids))
  = survey_ids.
Proof.
  intros Hnd. induction survey_ids as [|sid rest IH]; intros Hin; [reflexivity|].
  simpl. rewrite map_app. rewrite IH by (intros x Hx; apply Hin; now right).
  destruct (proj1 (in_map_iff _ _ _) (Hin sid (or_introl eq_refl))) as [s [Es Hs]].
  subst sid.
  rewrite (filter_unique_key s_survey_id surveys s Hnd Hs).
  simpl. rewrite Z.eqb_refl. reflexivity.
Qed.

(** C10: after [update_user_allowed_surveys u S], where the ids of [S]
    are surveys of the store (whose ids are unique),
    [get_user_allowed_surveys u] returns exactly the surveys of [S], each
    as often as [S] names it and with its name, in whatever order the
    query yields them: the user's former rows of [UserSurveys] are all
    gone, the new rows are those of [S] and nothing is merged; the rows
    of other users are kept. *)
Theorem update_user_allowed_surveys_replaces (uid : Z) (survey_ids : list Z) (db : Store) :
  NoDup (map s_survey_id (Surveys db)) ->
  (forall sid, In sid survey_ids -> In sid (map s_survey_id (Surveys db))) ->
  let '(ok, db') := update_user_allowed_surveys uid survey_ids db in
  ok = true
  /\ Permutation (map fst (get_user_allowed_surveys uid db')) survey_ids
  /\ (forall sid name, In (sid, name) (get_user_allowed_surveys uid db') <->
        In sid survey_ids
        /\ exists s, In s (Surveys db) /\ s_survey_id s = sid /\ s_survey_name s = name)
  /\ filter (fun us => us_user_id us =? uid) (UserSurveys db')
     = map (mkUserSurvey uid) survey_ids
  /\ filter (fun us => negb (us_user_id us =? uid)) (UserSurveys db')
     = filter (fun us => negb (us_user_id us =? uid)) (UserSurveys db).
Proof.
  intros Hnd Hin.
  destruct (update_user_allowed_surveys uid survey_ids db) as [ok db'] eqn:E.
  assert (Ht : UserSurveys db' = filter (fun us => negb (us_user_id us =? uid)) (UserSurveys db)
                                 ++ map (mkUserSurvey uid) survey_ids).
  { rewrite <- (update_user_allowed_surveys_table uid survey_ids db). now rewrite E. }
  assert (Hs : Surveys db' = Surveys db).
  { rewrite <- (update_user_allowed_surveys_Surveys uid survey_ids db). now rewrite E. }
  assert (Hold : flat_map (fun us =>
       flat_map (fun s =>
         if us_user_id us =? uid then [(s_survey_id s, s_survey_name s)] else [])
       (filter (fun s => us_survey_id us =? s_survey_id s) (Surveys db)))
     (filter (fun us => negb (us_user_id us =? uid)) (UserSurveys db)) = []).
  { apply flat_map_nil_ext. intros us Hus. apply filter_In in Hus.
    destruct Hus as [_ Hne]. apply negb_true_iff in Hne. rewrite Hne.
    apply flat_map_nil_ext. reflexivity. }
  split; [|split; [|split; [|split]]].
  - unfold update_user_allowed_surveys in E. now inversion E.
  - unfold get_user_allowed_surveys. rewrite execute_query_fetch_all. simpl.
    rewrite Ht, Hs, flat_map_app, Hold. simpl.
    rewrite grant_rows_of_new by assumption. apply Permutation_refl.
  - intros sid name.
    unfold get_user_allowed_surveys. rewrite execute_query_fetch_all.
    simpl. rewrite Hs, Ht. split.
    + intros H.
      apply in_flat_map in H. destruct H as [us [Hus H]].
      apply in_flat_map in H. destruct H as [s [Hs' H]].
      apply filter_In in Hs'. destruct Hs' as [Hs' Ejoin].
      destruct (us_user_id us =? uid) eqn:Eu; [|contradiction].
      destruct H as [H|[]]. inversion H; subst.
      apply Z.eqb_eq in Ejoin. split; [|exists s; auto].
      apply in_app_or in Hus. destruct Hus as [Hus|Hus].
      * apply filter_In in Hus. destruct Hus as [_ Hne].
        rewrite Eu in Hne. discriminate.
      * apply in_map_iff in Hus. destruct Hus as [sid' [<- Hsid]].
        simpl in Ejoin. now rewrite <- Ejoin.
    + intros [Hsid [s [Hs' [Eid Ename]]]].
      apply in_flat_map. exists (mkUserSurvey uid sid). split.
      * apply in_or_app. right. now apply in_map.
      * apply in_flat_map. exists s. split.
        -- apply filter_In. split; [assumption|]. simpl. apply Z.eqb_eq. congruence.
        -- simpl. rewrite Z.eqb_refl. left. congruence.
  - rewrite Ht, filter_app.
    rewrite filter_nil_ext.
    + simpl. apply filter_id_ext. intros us Hus. apply in_map_iff in Hus.
      destruct Hus as [sid [<- _]]. simpl. apply Z.eqb_refl.
    + intros us Hus. apply filter_In in Hus. destruct Hus as [_ Hne].
      now apply negb_true_iff in Hne.
  - rewrite Ht, filter_app.
    rewrite (filter_nil_ext _ (map (mkUserSurvey uid) survey_ids)).
    + rewrite app_nil_r. apply filter_id_ext. intros us Hus.
      apply filter_In in Hus. tauto.
    + intros us Hus. apply in_map_iff in Hus.
      destruct Hus as [sid [<- _]]. simpl. now rewrite Z.eqb_refl.
Qed.

(** The replacement at work on [cairo_db]: employee 1, who held a grant
    for survey 8, is given survey 7 alone. *)
Lemma update_user_allowed_surveys_replaces_cairo :
  let '(ok, db') := update_user_allowed_surveys 1 [7] cairo_db in
  ok = true
  /\ Permutation (map fst (get_user_allowed_surveys 1 db')) [7]
  /\ (forall sid name, In (sid, name) (get_user_allowed_surveys 1 db') <->
        In sid [7]
        /\ exists s, In s (Surveys cairo_db) /\ s_survey_id s = sid /\ s_survey_name s = name)
  /\ filter (fun us => us_user_id us =? 1) (UserSurveys db')
     = map (mkUserSurvey 1) [7]
  /\ filter (fun us => negb (us_user_id us =? 1)) (UserSurveys db')
     = filter (fun us => negb (us_user_id us =? 1)) (UserSurveys cairo_db).
Proof.
  apply (update_user_allowed_surveys_replaces 1 [7] cairo_db).
  - vm_compute. repeat constructor; simpl; intuition discriminate.
  - intros sid [<-|[]]. vm_compute. auto.
Defined.

(** ** Answer edits and the audit log *)





(** ** Governorates *)



(** ** Survey deletion *)

(** The subquery of the first statement, row by row: the details whose
    Response is one of the survey. *)
Lemma mem_responses_of_survey (survey_id i : Z) (responses : list Response) :
  mem i (map r_response_id (filter (fun r => r_survey_id r =? survey_id) responses))
  = existsb (fun r => (r_survey_id r =? survey_id) && (r_response_id r =? i)) responses.
Proof.
  unfold mem. induction responses as [|r rest IH]; [reflexivity|]. simpl.
  destruct (r_survey_id r =? survey_id); simpl.
  - rewrite IH, (Z.eqb_sym i). reflexivity.
  - exact IH.
Qed.

Lemma filter_drops {A} (p : A -> bool) (l : list A) (x : A) :
  p x = false -> ~ In x (filter p l).
Proof.
  intros Hp Hin. apply filter_In in Hin. destruct Hin as [_ Hin]. congruence.
Qed.

Lemma filter_keeps {A} (p : A -> bool) (l : list A) (x : A) :
  In x l -> p x = true -> In x (filter p l).
Proof.
  intros Hin Hp. apply filter_In. now split.
Qed.

(** C8: [delete_survey s] goes through five stores, one after each of
    its statements, in this order.  The first statement removes the
    ResponseDetails of the Responses of [s] and nothing else, while those
    Responses are still there; the second removes the Responses of [s],
    to which no detail refers any more; the third its SurveyFields; the
    fourth its governorate links; the fifth the Survey row, to which no
    Response, field or link refers any more.  The last store is the one
    committed, with [True].  In it no detail of a Response of [s], and no
    Response, field, link or Survey row of [s], is left; every row of
    these tables that belongs to another survey is still there; the
    other tables are as they were. *)
Theorem delete_survey_cascade (survey_id : Z) (db : Store) :
  exists db1 db2 db3 db4 db5 : Store,
    cursor_execute (delete_survey_statements survey_id) db = [db1; db2; db3; db4; db5]
    /\ delete_survey survey_id db = (true, db5)
    (* after the first statement *)
    /\ Response_Details db1
       = filter (fun rd =>
           negb (existsb (fun r => (r_survey_id r =? survey_id)
                                   && (r_response_id r =? rd_response_id rd))
                   (Responses db)))
           (Response_Details db)
    /\ Responses db1 = Responses db
    /\ Survey_Fields db1 = Survey_Fields db
    /\ SurveyGovernorate db1 = SurveyGovernorate db
    /\ Surveys db1 = Surveys db
    (* after the second *)
    /\ Response_Details db2 = Response_Details db1
    /\ Responses db2 = filter (fun r => negb (r_survey_id r =? survey_id)) (Responses db)
    /\ Survey_Fields db2 = Survey_Fields db
    /\ SurveyGovernorate db2 = SurveyGovernorate db
    /\ Surveys db2 = Surveys db
    (* after the third *)
    /\ Response_Details db3 = Response_Details db1
    /\ Responses db3 = Responses db2
    /\ Survey_Fields db3
       = filter (fun sf => negb (sf_survey_id sf =? survey_id)) (Survey_Fields db)
    /\ SurveyGovernorate db3 = SurveyGovernorate db
    /\ Surveys db3 = Surveys db
    (* after the fourth *)
    /\ Response_Details db4 = Response_Details db1
    /\ Responses db4 = Responses db2
    /\ Survey_Fields db4 = Survey_Fields db3
    /\ SurveyGovernorate db4
       = filter (fun sg => negb (sg_survey_id sg =? survey_id)) (SurveyGovernorate db)
    /\ Surveys db4 = Surveys db
    (* after the fifth *)
    /\ Response_Details db5 = Response_Details db1
    /\ Responses db5 = Responses db2
    /\ Survey_Fields db5 = Survey_Fields db3
    /\ SurveyGovernorate db5 = SurveyGovernorate db4
    /\ Surveys db5 = filter (fun s => negb (s_survey_id s =? survey_id)) (Surveys db)
    (* nothing refers to the rows a statement removes *)
    /\ (forall rd r, In rd (Response_Details db1) -> In r (Responses db1) ->
          r_survey_id r = survey_id -> rd_response_id rd <> r_response_id r)
    /\ (forall r, In r (Responses db4) -> r_survey_id r <> survey_id)
    /\ (forall sf, In sf (Survey_Fields db4) -> sf_survey_id sf <> survey_id)
    /\ (forall sg, In sg (SurveyGovernorate db4) -> sg_survey_id sg <> survey_id)
    (* what is gone in the end *)
    /\ (forall rd r, In r (Responses db) -> r_survey_id r = survey_id ->
          rd_response_id rd = r_response_id r -> ~ In rd (Response_Details db5))
    /\ (forall r, r_survey_id r = survey_id -> ~ In r (Responses db5))
    /\ (forall sf, sf_survey_id sf = survey_id -> ~ In sf (Survey_Fields db5))
    /\ (forall sg, sg_survey_id sg = survey_id -> ~ In sg (SurveyGovernorate db5))
    /\ (forall s, s_survey_id s = survey_id -> ~ In s (Surveys db5))
    (* what is still there *)
    /\ (forall rd, In rd (Response_Details db) ->
          (forall r, In r (Responses db) -> r_survey_id r = survey_id ->
             r_response_id r <> rd_response_id rd) ->
          In rd (Response_Details db5))
    /\ (forall r, In r (Responses db) -> r_survey_id r <> survey_id -> In r (Responses db5))
    /\ (forall sf, In sf (Survey_Fields db) -> sf_survey_id sf <> survey_id ->
          In sf (Survey_Fields db5))
    /\ (forall sg, In sg (SurveyGovernorate db) -> sg_survey_id sg <> survey_id ->
          In sg (SurveyGovernorate db5))
    /\ (forall s, In s (Surveys db) -> s_survey_id s <> survey_id -> In s (Surveys db5))
    /\ Users db5 = Users db
    /\ HealthAdministrations db5 = HealthAdministrations db
    /\ Governorates db5 = Governorates db
    /\ UserSurveys db5 = UserSurveys db
    /\ AuditLog db5 = AuditLog db.
Proof.
  assert (Hdetails :
    Response_Details (delete_response_details_of survey_id db)
    = filter (fun rd =>
        negb (existsb (fun r => (r_survey_id r =? survey_id)
                                && (r_response_id r =? rd_response_id rd))
                (Responses db)))
        (Response_Details db)).
  { unfold delete_response_details_of. simpl. apply filter_ext.
    intros rd. now rewrite mem_responses_of_survey. }
  assert (Hnone : forall rd r, In r (Responses db) -> r_survey_id r = survey_id ->
            rd_response_id rd = r_response_id r ->
            negb (existsb (fun r0 => (r_survey_id r0 =? survey_id)
                                     && (r_response_id r0 =? rd_response_id rd))
                    (Responses db)) = false).
  { intros rd r Hr Hs Hid. apply negb_false_iff. apply existsb_exists.
    exists r. split; [assumption|].
    apply andb_true_iff. split; [now apply Z.eqb_eq | apply Z.eqb_eq; congruence]. }
  assert (Hsame : forall (x : Z), x = survey_id -> negb (x =? survey_id) = false).
  { intros x ->. now rewrite Z.eqb_refl. }
  assert (Hother : forall (x : Z), x <> survey_id -> negb (x =? survey_id) = true).
  { intros x Hx. apply negb_true_iff. now apply Z.eqb_neq. }
  exists (delete_response_details_of survey_id db).
  exists (delete_responses_of survey_id (delete_response_details_of survey_id db)).
  exists (delete_fields_of survey_id
            (delete_responses_of survey_id (delete_response_details_of survey_id db))).
  exists (delete_links_of survey_id
            (delete_fields_of survey_id
               (delete_responses_of survey_id (delete_response_details_of survey_id db)))).
  exists (delete_survey_row survey_id
            (delete_links_of survey_id
               (delete_fields_of survey_id
                  (delete_responses_of survey_id
                     (delete_response_details_of survey_id db))))).
  split; [reflexivity|]. split; [reflexivity|].
  split; [exact Hdetails|].
  do 4 (split; [reflexivity|]).
  do 5 (split; [reflexivity|]).
  do 5 (split; [reflexivity|]).
  do 5 (split; [reflexivity|]).
  do 5 (split; [reflexivity|]).
  split.
  { intros rd r Hrd Hr Hs Hid. rewrite Hdetails in Hrd.
    revert Hrd. apply filter_drops. now apply (Hnone rd r). }
  split.
  { intros r Hr Hs. revert Hr. simpl. apply filter_drops. now apply Hsame. }
  split.
  { intros sf Hsf Hs. revert Hsf. simpl. apply filter_drops. now apply Hsame. }
  split.
  { intros sg Hsg Hs. revert Hsg. simpl. apply filter_drops. now apply Hsame. }
  split.
  { intros rd r Hr Hs Hid.
    change (~ In rd (Response_Details (delete_response_details_of survey_id db))).
    rewrite Hdetails. apply filter_drops. now apply (Hnone rd r). }
  split.
  { intros r Hs. simpl. apply filter_drops. now apply Hsame. }
  split.
  { intros sf Hs. simpl. apply filter_drops. now apply Hsame. }
  split.
  { intros sg Hs. simpl. apply filter_drops. now apply Hsame. }
  split.
  { intros s Hs. simpl. apply filter_drops. now apply Hsame. }
  split.
  { intros rd Hrd Hno.
    change (In rd (Response_Details (delete_response_details_of survey_id db))).
    rewrite Hdetails. apply filter_keeps; [assumption|].
    apply negb_true_iff.
    destruct (existsb _ (Responses db)) eqn:Ex; [|reflexivity].
    apply existsb_exists in Ex. destruct Ex as [r [Hr Hb]].
    apply andb_true_iff in Hb. destruct Hb as [Hs Hid].
    apply Z.eqb_eq in Hs, Hid. exfalso. now apply (Hno r Hr Hs). }
  split.
  { intros r Hr Hs. simpl. apply filter_keeps; [assumption|]. now apply Hother. }
  split.
  { intros sf Hsf Hs. simpl. apply filter_keeps; [assumption|]. now apply Hother. }
  split.
  { intros sg Hsg Hs. simpl. apply filter_keeps; [assumption|]. now apply Hother. }
  split.
  { intros s Hs Hne. simpl. apply filter_keeps; [assumption|]. now apply Hother. }
  repeat split.
Qed.

(** The order matters: were the Responses of survey 7 deleted first, the
    statement that deletes their details would find none to delete. *)
Example details_survive_when_responses_go_first :
  Response_Details (delete_response_details_of 7 (delete_responses_of 7 cairo_db))
  = Response_Details cairo_db
  /\ Response_Details (snd (delete_survey 7 cairo_db)) = [].
Proof. split; reflexivity. Qed.

(** ** Submissions *)

Lemma check_required_fields_In (fields : list FieldTuple) (answers : dict) (label : string) :
  In label (check_required_fields fields answers) <->
  exists field, In field fields /\ is_required field = true /\
                truthy (dict_get answers (field_id field)) = false /\
                field_label field = label.
Proof.
  induction fields as [|f rest IH]; simpl.
  - split; [contradiction | intros [field [[] _]]].
  - destruct (is_required f) eqn:Er; simpl;
      [destruct (truthy (dict_get answers (field_id f))) eqn:Et; simpl|].
    + rewrite IH. split.
      * intros [field [Hin H]]. exists field. split; [now right | exact H].
      * intros [field [[->|Hin] [Hr [Hf Hl]]]]; [congruence|]. exists field. auto.
    + rewrite IH. split.
      * intros [<-|[field [Hin H]]].
        -- exists f. auto.
        -- exists field. split; [now right | exact H].
      * intros [field [[->|Hin] [Hr [Hf Hl]]]]; [now left|].
        right. exists field. auto.
    + rewrite IH. split.
      * intros [field [Hin H]]. exists field. split; [now right | exact H].
      * intros [field [[->|Hin] [Hr [Hf Hl]]]]; [congruence|]. exists field. auto.
Qed.

(** A completed submission with a missing label stops at the first test. *)
Lemma process_rejects_missing (py_str : pyval -> string) (user_id survey_id region_id : Z)
    (fields : list FieldTuple) (answers : dict) (now_check now_save : Z) (db : Store)
    (label : string) :
  In label (check_required_fields fields answers) ->
  process_survey_submission py_str user_id survey_id region_id fields answers true
    now_check now_save db
  = (MissingRequiredFields (check_required_fields fields answers), db).
Proof.
  intros Hin. unfold process_survey_submission.
  destruct (check_required_fields fields answers) as [|l ls]; [contradiction|].
  reflexivity.
Qed.

(** C6: a completed submission in which a field marked required has an
    empty answer (one that is not true in the Python sense: absent,
    [None], the empty string) is rejected: the message shown is the
    required-fields text followed by the labels of the missing fields
    joined by commas, the label of that field among them, and the call
    leaves the store as it was, so no Response and no ResponseDetail row
    is created. *)
Theorem missing_required_field_rejects_submission (py_str : pyval -> string)
    (user_id survey_id region_id : Z) (fields : list FieldTuple) (answers : dict)
    (now_check now_save : Z) (db : Store) (field : FieldTuple) :
  In field fields ->
  is_required field = true ->
  truthy (dict_get answers (field_id field)) = false ->
  let '(r, db') :=
    process_survey_submission py_str user_id survey_id region_id fields answers true
      now_check now_save db in
  r = MissingRequiredFields (check_required_fields fields answers)
  /\ In (field_label field) (check_required_fields fields answers)
  /\ error_text r
     = Some ("الحقول التالية مطلوبة: "
             ++ String.concat ", " (check_required_fields fields answers))%string
  /\ db' = db
  /\ Responses db' = Responses db
  /\ Response_Details db' = Response_Details db.
Proof.
  intros Hin Hr Hf.
  assert (Hl : In (field_label field) (check_required_fields fields answers)).
  { apply check_required_fields_In. exists field. auto. }
  rewrite (process_rejects_missing py_str user_id survey_id region_id fields answers
             now_check now_save db (field_label field) Hl).
  repeat split. exact Hl.
Qed.

Lemma missing_required_field_rejects_submission_cairo :
  let '(r, db') :=
    process_survey_submission plain_str 1 7 10 cairo_fields
      [(1, PyStr ""); (2, PyStr "b")] true 90000 90001 cairo_db in
  r = MissingRequiredFields
        (check_required_fields cairo_fields [(1, PyStr ""); (2, PyStr "b")])
  /\ In "A" (check_required_fields cairo_fields [(1, PyStr ""); (2, PyStr "b")])
  /\ error_text r
     = Some ("الحقول التالية مطلوبة: "
             ++ String.concat ", "
                  (check_required_fields cairo_fields [(1, PyStr ""); (2, PyStr "b")]))%string
  /\ db' = cairo_db
  /\ Responses db' = Responses cairo_db
  /\ Response_Details db' = Response_Details cairo_db.
Proof.
  apply (missing_required_field_rejects_submission plain_str 1 7 10 cairo_fields
           [(1, PyStr ""); (2, PyStr "b")] 90000 90001 cairo_db
           (mkFieldTuple 1 "A" "text" None true 0)).
  - simpl. auto.
  - reflexivity.
  - reflexivity.
Defined.

(** *** Dictionaries and the answers read from the widgets *)

Lemma dict_lookup_set_same (k : Z) (v : pyval) (d : dict) :
  dict_lookup k (dict_set k v d) = Some v.
Proof.
  induction d as [|[k' v'] rest IH]; simpl.
  - now rewrite Z.eqb_refl.
  - destruct (k' =? k) eqn:E; simpl.
    + now rewrite Z.eqb_refl.
    + now rewrite E.
Qed.

Lemma dict_lookup_set_other (k k0 : Z) (v : pyval) (d : dict) :
  k <> k0 -> dict_lookup k0 (dict_set k v d) = dict_lookup k0 d.
Proof.
  intros Hne. induction d as [|[k' v'] rest IH]; simpl.
  - destruct (Z.eqb_spec k k0); [contradiction | reflexivity].
  - destruct (Z.eqb_spec k' k) as [->|Hk]; simpl.
    + destruct (Z.eqb_spec k k0); [contradiction | reflexivity].
    + destruct (k' =? k0); [reflexivity | exact IH].
Qed.

Lemma collect_answers_fold_other (json_loads : string -> list string) (w : Widgets)
    (fields : list FieldTuple) (acc : dict) (k : Z) :
  ~ In k (map field_id fields) ->
  dict_lookup k
    (fold_left (fun answers field =>
                  dict_set (field_id field) (answer_of json_loads w field) answers)
       fields acc)
  = dict_lookup k acc.
Proof.
  revert acc. induction fields as [|f rest IH]; intros acc Hk; simpl; [reflexivity|].
  rewrite IH by (intros H; apply Hk; now right).
  apply dict_lookup_set_other. intros E. apply Hk. left. exact E.
Qed.

Lemma collect_answers_lookup (json_loads : string -> list string) (w : Widgets)
    (fields : list FieldTuple) (field : FieldTuple) :
  NoDup (map field_id fields) -> In field fields ->
  dict_lookup (field_id field) (collect_answers json_loads w fields)
  = Some (answer_of json_loads w field).
Proof.
  unfold collect_answers. fold (answer_of json_loads w).
  change (fun answers field0 =>
            dict_set (field_id field0)
              (render_field json_loads w (field_id field0) (field_label field0)
                 (field_type field0) (field_options field0) (is_required field0)) answers)
    with (fun answers field0 =>
            dict_set (field_id field0) (answer_of json_loads w field0) answers).
  generalize (@nil (Z * pyval)) as acc.
  induction fields as [|f rest IH]; intros acc Hnd Hin; [contradiction|].
  simpl in Hnd. inversion Hnd as [|? ? Hnot Hnd']; subst. simpl.
  destruct Hin as [->|Hin].
  - rewrite collect_answers_fold_other by exact Hnot.
    apply dict_lookup_set_same.
  - now apply IH.
Qed.

Lemma falsy_answer_not_truthy (answers : dict) (fid : Z) :
  falsy_answer answers fid -> truthy (dict_get answers fid) = false.
Proof.
  unfold falsy_answer, dict_get.
  intros [H|[H|[H|[H|[q [H Hq]]]]]]; rewrite H; simpl; try reflexivity.
  rewrite Hq. reflexivity.
Qed.

(** C9: the presence check goes by Python truth.  For a required field
    whose submitted answer is absent, [None], the empty string, the
    boolean [False] or a number equal to zero, a completed submission is
    rejected and the label of the field is listed, with the store left as
    it was.  This reaches real answers: in the form, whose field ids are
    distinct, a required checkbox left unchecked and a required number
    field holding zero are answered [False] and [0] by their widgets,
    and pressing the submit button is rejected with their label. *)
Theorem required_falsy_answer_is_missing (json_loads : string -> list string)
    (py_str : pyval -> string) (user_id survey_id region_id : Z)
    (fields : list FieldTuple) (field : FieldTuple) (now_check now_save : Z) (db : Store) :
  In field fields ->
  is_required field = true ->
  (forall answers, falsy_answer answers (field_id field) ->
     In (field_label field) (check_required_fields fields answers)
     /\ process_survey_submission py_str user_id survey_id region_id fields answers true
          now_check now_save db
        = (MissingRequiredFields (check_required_fields fields answers), db))
  /\ (forall w save_draft,
        NoDup (map field_id fields) ->
        (field_type field = "checkbox" /\ checkbox w (field_id field) = false)
        \/ (field_type field = "number" /\ Qnum (number_input w (field_id field)) = 0) ->
        exists labels,
          In (field_label field) labels
          /\ display_survey_form json_loads py_str w true save_draft user_id survey_id
               region_id fields now_check now_save db
             = (Some (MissingRequiredFields labels), db)).
Proof.
  intros Hin Hreq. split.
  - intros answers Hf.
    assert (Hl : In (field_label field) (check_required_fields fields answers)).
    { apply check_required_fields_In. exists field.
      repeat split; auto. now apply falsy_answer_not_truthy. }
    split; [exact Hl|]. now apply process_rejects_missing with (label := field_label field).
  - intros w save_draft Hnd Hw.
    exists (check_required_fields fields (collect_answers json_loads w fields)).
    assert (Hf : falsy_answer (collect_answers json_loads w fields) (field_id field)).
    { unfold falsy_answer. rewrite (collect_answers_lookup json_loads w fields field Hnd Hin).
      unfold answer_of, render_field.
      destruct Hw as [[Ht Hc]|[Ht Hn]]; rewrite Ht; simpl.
      - rewrite Hc. auto.
      - right. right. right. right. eauto. }
    assert (Hl : In (field_label field)
                   (check_required_fields fields (collect_answers json_loads w fields))).
    { apply check_required_fields_In. exists field.
      repeat split; auto. now apply falsy_answer_not_truthy. }
    split; [exact Hl|].
    unfold display_survey_form. simpl.
    rewrite (process_rejects_missing py_str user_id survey_id region_id fields _
               now_check now_save db (field_label field) Hl).
    reflexivity.
Qed.

Lemma required_falsy_answer_is_missing_cairo :
  (In "Vaccinated" (check_required_fields checkbox_fields [(5, PyBool false); (6, PyNum (Qmake 3 1))])
   /\ process_survey_submission plain_str 1 7 10 checkbox_fields
        [(5, PyBool false); (6, PyNum (Qmake 3 1))] true 90000 90001 cairo_db
      = (MissingRequiredFields
           (check_required_fields checkbox_fields [(5, PyBool false); (6, PyNum (Qmake 3 1))]),
         cairo_db))
  /\ exists labels,
       In "Vaccinated" labels
       /\ display_survey_form (fun _ => []) plain_str idle_widgets true false 1 7 10
            checkbox_fields 90000 90001 cairo_db
          = (Some (MissingRequiredFields labels), cairo_db).
Proof.
  destruct (required_falsy_answer_is_missing (fun _ => []) plain_str 1 7 10 checkbox_fields
              (mkFieldTuple 5 "Vaccinated" "checkbox" None true 0) 90000 90001 cairo_db)
    as [HA HB].
  - simpl. auto.
  - reflexivity.
  - split.
    + apply (HA [(5, PyBool false); (6, PyNum (Qmake 3 1))]).
      unfold falsy_answer. simpl. auto.
    + apply (HB idle_widgets false).
      * simpl. repeat constructor; simpl; intuition discriminate.
      * left. split; reflexivity.
Defined.

(** *** Once a day *)

Lemma has_completed_survey_today_count (user_id survey_id now : Z) (db : Store) :
  has_completed_survey_today user_id survey_id now db = false <->
  completed_count db user_id survey_id (date_of now) = 0%nat.
Proof.
  unfold has_completed_survey_today, completed_count, execute_query. simpl.
  change (fun r => (r_user_id r =? user_id) && (r_survey_id r =? survey_id)
                   && r_is_completed r && (date_of (r_submission_date r) =? date_of now))
    with (completed_on user_id survey_id (date_of now)).
  destruct (filter (completed_on user_id survey_id (date_of now)) (Responses db));
    simpl; split; intros H; congruence.
Qed.

Lemma date_of_mono (a b : Z) : a <= b -> date_of a <= date_of b.
Proof. intros H. unfold date_of. apply Z.div_le_mono; lia. Qed.

Lemma save_response_details_Responses (py_str : pyval -> string) (response_id : Z)
    (answers : dict) (db : Store) :
  Responses (save_response_details py_str response_id answers db) = Responses db.
Proof.
  revert db. induction answers as [|[fid answer] rest IH]; intros db; simpl; [reflexivity|].
  rewrite IH. destruct answer; reflexivity.
Qed.

(** What a call does to [Responses]: nothing, or one row at the end. *)
Lemma process_survey_submission_Responses (py_str : pyval -> string)
    (user_id survey_id region_id : Z) (fields : list FieldTuple) (answers : dict)
    (is_completed : bool) (now_check now_save : Z) (db : Store) :
  let db' := snd (process_survey_submission py_str user_id survey_id region_id fields
                    answers is_completed now_check now_save db) in
  Responses db' = Responses db
  \/ ((is_completed = true ->
       has_completed_survey_today user_id survey_id now_check db = false)
      /\ Responses db'
         = Responses db ++ [mkResponse (Responses_seq db) survey_id user_id region_id
                              is_completed now_save]).
Proof.
  unfold process_survey_submission.
  destruct (match check_required_fields fields answers with
            | [] => false | _ :: _ => true end && is_completed); [now left|].
  destruct (is_completed && has_completed_survey_today user_id survey_id now_check db)
    eqn:Ec; [now left|].
  right. split.
  - intros ->. exact Ec.
  - unfold save_response, execute_query. simpl. reflexivity.
Qed.

(** C2: when a completed Response of the user for the survey exists on
    the day of the check, a submission flagged completed is rejected and
    the store is left as it was, so no Response row is inserted; the
    rejection is AlreadyCompletedToday unless a required field is missing
    as well, which is reported first.  Hence a store with at most one
    completed Response per user, survey and day stays so through every
    call, the clock running forward (no stored Response is later than the
    check, the insert is not earlier). *)
Theorem completed_today_rejects_completion (py_str : pyval -> string)
    (user_id survey_id region_id : Z) (fields : list FieldTuple) (answers : dict)
    (now_check now_save : Z) (db : Store) :
  one_completed_per_day db ->
  (forall r, In r (Responses db) -> r_submission_date r <= now_check) ->
  now_check <= now_save ->
  (has_completed_survey_today user_id survey_id now_check db = true ->
   let '(r, db') :=
     process_survey_submission py_str user_id survey_id region_id fields answers true
       now_check now_save db in
   db' = db
   /\ Responses db' = Responses db
   /\ (r = AlreadyCompletedToday
       \/ r = MissingRequiredFields (check_required_fields fields answers))
   /\ (check_required_fields fields answers = [] -> r = AlreadyCompletedToday))
  /\ (forall is_completed,
        one_completed_per_day
          (snd (process_survey_submission py_str user_id survey_id region_id fields
                  answers is_completed now_check now_save db))).
Proof.
  intros Hinv Hpast Hclock. split.
  - intros Hdone. unfold process_survey_submission. rewrite Hdone.
    destruct (check_required_fields fields answers) as [|l ls]; simpl.
    + repeat split; auto.
    + repeat split; auto. intros H. discriminate H.
  - intros is_completed.
    pose proof (process_survey_submission_Responses py_str user_id survey_id region_id
                  fields answers is_completed now_check now_save db) as H.
    simpl in H.
    set (db' := snd (process_survey_submission py_str user_id survey_id region_id fields
                       answers is_completed now_check now_save db)) in *.
    intros u s d. unfold completed_count.
    destruct H as [H|[Hcheck H]]; rewrite H; [apply Hinv|].
    rewrite filter_app, length_app. simpl.
    destruct (completed_on u s d
                (mkResponse (Responses_seq db) survey_id user_id region_id is_completed
                   now_save)) eqn:En; simpl; [|rewrite Nat.add_0_r; apply Hinv].
    unfold completed_on in En. simpl in En.
    apply andb_true_iff in En. destruct En as [En Ed].
    apply andb_true_iff in En. destruct En as [En Ec].
    apply andb_true_iff in En. destruct En as [Eu Es].
    apply Z.eqb_eq in Eu, Es, Ed. subst u s d is_completed.
    specialize (Hcheck eq_refl).
    apply has_completed_survey_today_count in Hcheck.
    assert (Hz : List.length (filter (completed_on user_id survey_id (date_of now_save))
                           (Responses db)) = 0%nat).
    { destruct (Z.eq_dec (date_of now_save) (date_of now_check)) as [E|E].
      - rewrite E. exact Hcheck.
      - rewrite filter_nil_ext; [reflexivity|].
        intros r Hr. unfold completed_on.
        apply andb_false_iff. right. apply Z.eqb_neq.
        pose proof (date_of_mono _ _ (Hpast r Hr)).
        pose proof (date_of_mono _ _ Hclock). lia. }
    rewrite Hz. simpl. lia.
Qed.

Lemma completed_today_rejects_completion_cairo :
  (let '(r, db') :=
     process_survey_submission plain_str 1 7 10 cairo_fields
       [(1, PyStr "a"); (2, PyStr "b")] true 2000 2001 cairo_db in
   db' = cairo_db
   /\ Responses db' = Responses cairo_db
   /\ (r = AlreadyCompletedToday
       \/ r = MissingRequiredFields
                (check_required_fields cairo_fields [(1, PyStr "a"); (2, PyStr "b")]))
   /\ (check_required_fields cairo_fields [(1, PyStr "a"); (2, PyStr "b")] = [] ->
       r = AlreadyCompletedToday))
  /\ (forall is_completed,
        one_completed_per_day
          (snd (process_survey_submission plain_str 1 7 10 cairo_fields
                  [(1, PyStr "a"); (2, PyStr "b")] is_completed 2000 2001 cairo_db))).
Proof.
  destruct (completed_today_rejects_completion plain_str 1 7 10 cairo_fields
              [(1, PyStr "a"); (2, PyStr "b")] 2000 2001 cairo_db) as [HA HB].
  - intros u s d. unfold completed_count. simpl.
    destruct (completed_on u s d (mkResponse 1 7 1 10 true 1000)); simpl; lia.
  - intros r [<-|[]]. simpl. lia.
  - lia.
  - split; [apply HA; reflexivity | exact HB].
Defined.

(** ** Reconciliation of a survey's fields *)

Section Reconcile.

Variable json_dumps : pyval -> string.

Lemma write_field_id (field : TargetField) (fid i : Z) (sf : SurveyField) :
  sf_field_id (write_field json_dumps field fid i sf) = sf_field_id sf
  /\ sf_survey_id (write_field json_dumps field fid i sf) = sf_survey_id sf.
Proof. unfold write_field. destruct (sf_field_id sf =? fid); split; reflexivity. Qed.

Lemma apply_updates_id (i : Z) (fields : list TargetField) (sf : SurveyField) :
  sf_field_id (apply_updates json_dumps i fields sf) = sf_field_id sf
  /\ sf_survey_id (apply_updates json_dumps i fields sf) = sf_survey_id sf.
Proof.
  revert i sf. induction fields as [|field rest IH]; intros i sf; simpl; [now split|].
  destruct (tf_field_id field) as [fid|].
  - destruct (IH (i + 1) (write_field json_dumps field fid i sf)) as [H1 H2].
    destruct (write_field_id field fid i sf) as [H3 H4]. split; congruence.
  - apply IH.
Qed.

Lemma apply_updates_miss (i : Z) (fields : list TargetField) (sf : SurveyField) :
  ~ In (sf_field_id sf) (updated_field_ids fields) ->
  apply_updates json_dumps i fields sf = sf.
Proof.
  revert i sf. induction fields as [|field rest IH]; intros i sf Hno; simpl; [reflexivity|].
  unfold updated_field_ids in Hno. simpl in Hno. fold (updated_field_ids rest) in Hno.
  destruct (tf_field_id field) as [fid|].
  - simpl in Hno. unfold write_field.
    destruct (Z.eqb_spec (sf_field_id sf) fid) as [E|E].
    + exfalso. apply Hno. left. now symmetry.
    + apply IH. intros H. apply Hno. now right.
  - apply IH. exact Hno.
Qed.

Lemma update_survey_loop_frame (survey_id i : Z) (fields : list TargetField) (db : Store) :
  let db' := update_survey_loop json_dumps survey_id i fields db in
  Users db' = Users db /\ HealthAdministrations db' = HealthAdministrations db
  /\ Governorates db' = Governorates db /\ Surveys db' = Surveys db
  /\ SurveyGovernorate db' = SurveyGovernorate db /\ UserSurveys db' = UserSurveys db
  /\ Responses db' = Responses db /\ Response_Details db' = Response_Details db
  /\ AuditLog db' = AuditLog db.
Proof.
  revert i db. induction fields as [|field rest IH]; intros i db; simpl.
  - repeat split.
  - destruct (tf_field_id field) as [fid|];
      match goal with |- context [update_survey_loop _ _ _ _ ?d] =>
        specialize (IH (i + 1) d) end; simpl in IH; exact IH.
Qed.

(** The table after the loop: every row as the updates leave it, then
    the rows inserted. *)
Lemma update_survey_loop_table (survey_id i : Z) (fields : list TargetField) (db : Store) :
  (forall fid, In fid (updated_field_ids fields) -> fid < Survey_Fields_seq db) ->
  Survey_Fields (update_survey_loop json_dumps survey_id i fields db)
  = map (apply_updates json_dumps i fields) (Survey_Fields db)
    ++ inserted_rows json_dumps survey_id i (Survey_Fields_seq db) fields.
Proof.
  revert i db. induction fields as [|field rest IH]; intros i db Hlt; simpl.
  - rewrite map_id. now rewrite app_nil_r.
  - unfold updated_field_ids in Hlt. simpl in Hlt. fold (updated_field_ids rest) in Hlt.
    destruct (tf_field_id field) as [fid|].
    + rewrite IH.
      * simpl. rewrite map_map. reflexivity.
      * intros x Hx. simpl. apply Hlt. now right.
    + rewrite IH.
      * simpl. rewrite map_app. simpl. rewrite <- app_assoc. simpl.
        rewrite apply_updates_miss; [reflexivity|].
        simpl. intros H. specialize (Hlt _ H). lia.
      * intros x Hx. simpl. specialize (Hlt _ Hx). lia.
Qed.

End Reconcile.

Section ReconcileSurvey.

Variable json_dumps : pyval -> string.

Lemma fields_to_delete_In (survey_id : Z) (fields : list TargetField) (db : Store) (fid : Z) :
  In fid (fields_to_delete survey_id fields db) <->
  (exists sf, In sf (Survey_Fields db) /\ sf_survey_id sf = survey_id /\ sf_field_id sf = fid)
  /\ ~ In fid (updated_field_ids fields).
Proof.
  unfold fields_to_delete, existing_field_ids. rewrite filter_In, in_map_iff.
  rewrite negb_true_iff, mem_not_In. split.
  - intros [[sf [E Hsf]] Hno]. apply filter_In in Hsf. destruct Hsf as [Hsf Es].
    apply Z.eqb_eq in Es. split; [exists sf; auto | exact Hno].
  - intros [[sf [Hsf [Es E]]] Hno]. split; [|exact Hno].
    exists sf. split; [exact E|]. apply filter_In. split; [exact Hsf|].
    now apply Z.eqb_eq.
Qed.

Lemma kept_rows_In (survey_id : Z) (fields : list TargetField) (db : Store) (sf : SurveyField) :
  In sf (kept_rows survey_id fields db) <->
  In sf (Survey_Fields db) /\ ~ In (sf_field_id sf) (fields_to_delete survey_id fields db).
Proof.
  unfold kept_rows. rewrite filter_In, negb_true_iff, mem_not_In. reflexivity.
Qed.

Lemma update_survey_frame (survey_id : Z) (survey_name : string) (is_active : bool)
    (fields : list TargetField) (db : Store) :
  let '(ok, db') := update_survey json_dumps survey_id survey_name is_active fields db in
  ok = true /\ Response_Details db' = Response_Details db
  /\ Responses db' = Responses db /\ AuditLog db' = AuditLog db.
Proof.
  unfold update_survey. cbv zeta.
  match goal with |- context [update_survey_loop _ _ _ _ ?d] =>
    remember d as d0 eqn:Ed
  end.
  assert (Hd : Response_Details d0 = Response_Details db /\ Responses d0 = Responses db
               /\ AuditLog d0 = AuditLog db).
  { subst d0. destruct (filter _ _); repeat split. }
  pose proof (update_survey_loop_frame json_dumps survey_id 0 fields d0) as H.
  cbv zeta in H. destruct H as [_ [_ [_ [_ [_ [_ [H1 [H2 H3]]]]]]]].
  destruct Hd as [H4 [H5 H6]].
  rewrite H1, H2, H3. auto.
Qed.

(** The fields table after [update_survey]. *)
Lemma update_survey_table (survey_id : Z) (survey_name : string) (is_active : bool)
    (fields : list TargetField) (db : Store) :
  (forall fid, In fid (updated_field_ids fields) -> fid < Survey_Fields_seq db) ->
  Survey_Fields (snd (update_survey json_dumps survey_id survey_name is_active fields db))
  = map (apply_updates json_dumps 0 fields) (kept_rows survey_id fields db)
    ++ inserted_rows json_dumps survey_id 0 (Survey_Fields_seq db) fields.
Proof.
  intros Hlt. unfold update_survey. simpl.
  change (filter (fun fid => negb (mem fid (updated_field_ids fields)))
            (existing_field_ids survey_id
               (with_Surveys
                  (map (fun s => if s_survey_id s =? survey_id
                                 then mkSurvey (s_survey_id s) survey_name (s_created_by s)
                                        (s_created_at s) is_active
                                 else s)) db)))
    with (fields_to_delete survey_id fields db).
  destruct (fields_to_delete survey_id fields db) as [|d ds] eqn:Ed.
  - rewrite update_survey_loop_table by exact Hlt. simpl.
    unfold kept_rows. rewrite Ed.
    rewrite filter_id_ext; [reflexivity|]. intros; reflexivity.
  - rewrite update_survey_loop_table by exact Hlt. simpl.
    unfold kept_rows. rewrite Ed. reflexivity.
Qed.

Lemma inserted_rows_In (survey_id i n : Z) (fields : list TargetField) (sf : SurveyField) :
  In sf (inserted_rows json_dumps survey_id i n fields) ->
  n <= sf_field_id sf /\ sf_survey_id sf = survey_id /\ i <= sf_field_order sf.
Proof.
  revert i n. induction fields as [|field rest IH]; intros i n H; simpl in H; [contradiction|].
  destruct (tf_field_id field) as [fid|].
  - apply IH in H. lia.
  - destruct H as [<-|H].
    + simpl. lia.
    + apply IH in H. lia.
Qed.

(** C5 (as amended): when the target list of [update_survey] omits a
    field of the survey, the field is deleted and the call returns
    success whether or not a ResponseDetail refers to the field: no
    FieldInUse test and no confirmation stand in the way, and the
    ResponseDetails are left as they were, those of the deleted field
    among them (ids in the table and in the list are below the next id
    drawn). *)
Theorem update_survey_deletes_omitted_field (survey_id : Z) (survey_name : string)
    (is_active : bool) (fields : list TargetField) (db : Store) (omitted : SurveyField) :
  (forall sf, In sf (Survey_Fields db) -> sf_field_id sf < Survey_Fields_seq db) ->
  (forall fid, In fid (updated_field_ids fields) -> fid < Survey_Fields_seq db) ->
  In omitted (Survey_Fields db) ->
  sf_survey_id omitted = survey_id ->
  ~ In (sf_field_id omitted) (updated_field_ids fields) ->
  let '(ok, db') := update_survey json_dumps survey_id survey_name is_active fields db in
  ok = true
  /\ (forall sf, In sf (Survey_Fields db') -> sf_field_id sf <> sf_field_id omitted)
  /\ Response_Details db' = Response_Details db
  /\ (forall rd, In rd (Response_Details db) -> rd_field_id rd = sf_field_id omitted ->
        In rd (Response_Details db')).
Proof.
  intros Hfresh Hlt Hin Hs Hno.
  pose proof (update_survey_frame survey_id survey_name is_active fields db) as Hf.
  pose proof (update_survey_table survey_id survey_name is_active fields db Hlt) as Ht.
  destruct (update_survey json_dumps survey_id survey_name is_active fields db) as [ok db'].
  simpl in Ht. destruct Hf as [Hok [Hrd _]].
  split; [exact Hok|]. split; [|split; [exact Hrd | intros rd Hr _; now rewrite Hrd]].
  intros sf Hsf. rewrite Ht in Hsf. apply in_app_or in Hsf. destruct Hsf as [Hsf|Hsf].
  - apply in_map_iff in Hsf. destruct Hsf as [y [<- Hy]].
    destruct (apply_updates_id json_dumps 0 fields y) as [-> _].
    apply kept_rows_In in Hy. destruct Hy as [_ Hy].
    intros E. apply Hy. rewrite E. apply fields_to_delete_In.
    split; [exists omitted; auto | exact Hno].
  - apply inserted_rows_In in Hsf. specialize (Hfresh _ Hin). lia.
Qed.

End ReconcileSurvey.

Lemma update_survey_deletes_omitted_field_cairo :
  let '(ok, db') := update_survey no_dumps 7 "Weekly Health Check" true target_B_C cairo_db in
  ok = true
  /\ (forall sf, In sf (Survey_Fields db') -> sf_field_id sf <> 1)
  /\ Response_Details db' = Response_Details cairo_db
  /\ (forall rd, In rd (Response_Details cairo_db) -> rd_field_id rd = 1 ->
        In rd (Response_Details db')).
Proof.
  apply (update_survey_deletes_omitted_field no_dumps 7 "Weekly Health Check" true
           target_B_C cairo_db (mkSurveyField 1 7 "A" "text" None true 0)).
  - intros sf [<-|[<-|[]]]; simpl; lia.
  - intros fid [<-|[]]. simpl. lia.
  - simpl. auto.
  - reflexivity.
  - simpl. intros [H|[]]. discriminate H.
Defined.

(** C5 (as stated) fails: field 1 of survey 7 in [cairo_db] is referred
    to by ResponseDetail 1 and left out of the target list; the call
    returns success, the field is gone and the detail remains. *)
Lemma update_survey_deletes_field_in_use :
  let '(ok, db') := update_survey no_dumps 7 "Weekly Health Check" true target_B_C cairo_db in
  In (mkSurveyField 1 7 "A" "text" None true 0) (Survey_Fields cairo_db)
  /\ In (mkResponseDetail 1 1 1 "a") (Response_Details cairo_db)
  /\ ok = true
  /\ Survey_Fields db'
     = [mkSurveyField 2 7 "B" "text" None false 0; mkSurveyField 3 7 "C" "text" None true 1]
  /\ In (mkResponseDetail 1 1 1 "a") (Response_Details db').
Proof.
  vm_compute. repeat split; auto.
Qed.

(** ** [ORDER BY]: the insertion sort orders and permutes *)

Section OrderBy.

Context {A : Type} (key : A -> Z).

Lemma insert_by_perm (x : A) (l : list A) : Permutation (insert_by key x l) (x :: l).
Proof.
  induction l as [|y rest IH]; simpl; [reflexivity|].
  destruct (key x <=? key y); [reflexivity|].
  rewrite IH. apply perm_swap.
Qed.

Lemma order_by_perm (l : list A) : Permutation (order_by key l) l.
Proof.
  induction l as [|x rest IH]; simpl; [reflexivity|].
  rewrite insert_by_perm. now constructor.
Qed.

Lemma insert_by_sorted (x : A) (l : list A) :
  StronglySorted (key_le key) l -> StronglySorted (key_le key) (insert_by key x l).
Proof.
  induction l as [|y rest IH]; intros Hs; simpl.
  - constructor; constructor.
  - inversion Hs as [|? ? Hrest Hall]; subst.
    destruct (Z.leb_spec (key x) (key y)) as [Hle|Hgt].
    + constructor; [exact Hs|]. constructor; [exact Hle|].
      eapply Forall_impl; [|exact Hall]. unfold key_le. intros a Ha. lia.
    + constructor; [now apply IH|].
      eapply Permutation_Forall; [symmetry; apply insert_by_perm|].
      constructor; [unfold key_le; lia | exact Hall].
Qed.

Lemma order_by_sorted (l : list A) : StronglySorted (key_le key) (order_by key l).
Proof.
  induction l as [|x rest IH]; simpl; [constructor | now apply insert_by_sorted].
Qed.

(** A list sorted by the key and a strictly sorted one that hold the
    same rows are equal. *)
Lemma sorted_perm_unique (l1 l2 : list A) :
  Permutation l1 l2 -> StronglySorted (key_le key) l1 -> StronglySorted (key_lt key) l2 -> l1 = l2.
Proof.
  revert l1. induction l2 as [|y l2' IH]; intros l1 Hp H1 H2.
  - symmetry in Hp. now apply Permutation_nil in Hp.
  - destruct l1 as [|x l1'].
    + now apply Permutation_nil in Hp.
    + inversion H1 as [|? ? H1' Hx]; subst. inversion H2 as [|? ? H2' Hy]; subst.
      assert (E : x = y).
      { assert (Hxin : In x (y :: l2')) by (eapply Permutation_in; [exact Hp | now left]).
        destruct Hxin as [E|Hxin]; [now symmetry|].
        assert (Hyin : In y (x :: l1'))
          by (eapply Permutation_in; [symmetry; exact Hp | now left]).
        destruct Hyin as [E|Hyin]; [exact E|].
        rewrite Forall_forall in Hx, Hy.
        specialize (Hx _ Hyin). specialize (Hy _ Hxin).
        unfold key_le, key_lt in *. lia. }
      subst y. f_equal. apply IH; [|exact H1'|exact H2'].
      now apply Permutation_cons_inv in Hp.
Qed.

Lemma order_by_unique (l l' : list A) :
  Permutation l l' -> StronglySorted (key_lt key) l' -> order_by key l = l'.
Proof.
  intros Hp Hs. apply sorted_perm_unique; [|apply order_by_sorted|exact Hs].
  rewrite order_by_perm. exact Hp.
Qed.

End OrderBy.

(** ** The listing after a reconciliation *)

Lemma filter_map_preserve {A} (p : A -> bool) (f : A -> A) (l : list A) :
  (forall x, p (f x) = p x) -> filter p (map f l) = map f (filter p l).
Proof.
  intros H. induction l as [|x rest IH]; simpl; [reflexivity|].
  rewrite H. destruct (p x); simpl; now rewrite IH.
Qed.

Lemma NoDup_map_filter {A} (key : A -> Z) (p : A -> bool) (l : list A) :
  NoDup (map key l) -> NoDup (map key (filter p l)).
Proof.
  induction l as [|x rest IH]; simpl; intros Hnd; [constructor|].
  inversion Hnd as [|? ? Hnot Hnd']; subst.
  destruct (p x); simpl; [|now apply IH].
  constructor; [|now apply IH].
  intros Hin. apply Hnot. apply in_map_iff in Hin. destruct Hin as [y [E Hy]].
  apply filter_In in Hy. rewrite <- E. apply in_map. tauto.
Qed.

Lemma NoDup_of_keys {A} (key : A -> Z) (l : list A) : NoDup (map key l) -> NoDup l.
Proof.
  induction l as [|x rest IH]; simpl; intros Hnd; constructor;
    inversion Hnd as [|? ? Hnot Hnd']; subst.
  - intros Hin. apply Hnot. now apply in_map.
  - now apply IH.
Qed.

Section ReconcileListing.

Variable json_dumps : pyval -> string.

Lemma updated_field_ids_cons (field : TargetField) (rest : list TargetField) :
  updated_field_ids (field :: rest)
  = match tf_field_id field with
    | Some fid => fid :: updated_field_ids rest
    | None => updated_field_ids rest
    end.
Proof. unfold updated_field_ids. simpl. destruct (tf_field_id field); reflexivity. Qed.

Lemma updated_rows_ids (survey_id i : Z) (fields : list TargetField) :
  map sf_field_id (updated_rows json_dumps survey_id i fields) = updated_field_ids fields.
Proof.
  revert i. induction fields as [|field rest IH]; intros i; [reflexivity|].
  rewrite updated_field_ids_cons. simpl.
  destruct (tf_field_id field); simpl; now rewrite IH.
Qed.

Lemma updated_rows_survey (survey_id i : Z) (fields : list TargetField) (r : SurveyField) :
  In r (updated_rows json_dumps survey_id i fields) -> sf_survey_id r = survey_id.
Proof.
  revert i. induction fields as [|field rest IH]; intros i H; simpl in H; [contradiction|].
  destruct (tf_field_id field); [destruct H as [<-|H]; [reflexivity|]|]; eapply IH; eauto.
Qed.

(** A row whose id is in the target list becomes the row its entry
    describes. *)
Lemma apply_updates_hit (i : Z) (fields : list TargetField) (sf : SurveyField) :
  NoDup (updated_field_ids fields) ->
  In (sf_field_id sf) (updated_field_ids fields) ->
  In (apply_updates json_dumps i fields sf)
     (updated_rows json_dumps (sf_survey_id sf) i fields).
Proof.
  revert i sf. induction fields as [|field rest IH]; intros i sf Hnd Hin; [contradiction|].
  rewrite updated_field_ids_cons in Hnd, Hin. simpl.
  destruct (tf_field_id field) as [fid|].
  2: { now apply IH. }
  inversion Hnd as [|? ? Hnot Hnd']; subst.
  unfold write_field. destruct (Z.eqb_spec (sf_field_id sf) fid) as [E|E].
  - left. rewrite apply_updates_miss.
    + unfold target_row. now rewrite E.
    + simpl. now rewrite E.
  - right. destruct Hin as [Hin|Hin]; [congruence|]. now apply IH.
Qed.

(** Conversely the row an entry describes is what the updates make of
    the stored row with its id. *)
Lemma apply_updates_target (i : Z) (fields : list TargetField) (r sf : SurveyField) :
  NoDup (updated_field_ids fields) ->
  In r (updated_rows json_dumps (sf_survey_id sf) i fields) ->
  sf_field_id sf = sf_field_id r ->
  apply_updates json_dumps i fields sf = r.
Proof.
  revert i sf. induction fields as [|field rest IH]; intros i sf Hnd Hin Hid; [contradiction|].
  rewrite updated_field_ids_cons in Hnd. simpl in Hin |- *.
  destruct (tf_field_id field) as [fid|].
  2: { now apply IH. }
  inversion Hnd as [|? ? Hnot Hnd']; subst.
  unfold write_field. destruct Hin as [<-|Hin].
  - simpl in Hid. rewrite Hid, Z.eqb_refl.
    rewrite apply_updates_miss; [reflexivity|].
    simpl. exact Hnot.
  - assert (Hr : In (sf_field_id r) (updated_field_ids rest)).
    { rewrite <- (updated_rows_ids (sf_survey_id sf) (i + 1) rest). now apply in_map. }
    destruct (Z.eqb_spec (sf_field_id sf) fid) as [E|E]; [exfalso; congruence|].
    now apply IH.
Qed.

Lemma target_rows_In (survey_id i n : Z) (fields : list TargetField) (r : SurveyField) :
  In r (target_rows json_dumps survey_id i n fields) ->
  i <= sf_field_order r
  /\ (In (sf_field_id r) (updated_field_ids fields) \/ n <= sf_field_id r).
Proof.
  revert i n. induction fields as [|field rest IH]; intros i n H; simpl in H; [contradiction|].
  rewrite updated_field_ids_cons.
  destruct (tf_field_id field) as [fid|]; destruct H as [<-|H]; simpl.
  - split; [lia | left; now left].
  - apply IH in H. destruct H as [H1 [H2|H2]]; (split; [lia|]); [left; now right | now right].
  - split; [lia | right; lia].
  - apply IH in H. destruct H as [H1 [H2|H2]]; (split; [lia|]); [now left | right; lia].
Qed.

Lemma target_rows_sorted (survey_id i n : Z) (fields : list TargetField) :
  StronglySorted (key_lt sf_field_order) (target_rows json_dumps survey_id i n fields).
Proof.
  revert i n. induction fields as [|field rest IH]; intros i n; simpl; [constructor|].
  destruct (tf_field_id field) as [fid|]; constructor; try apply IH;
    apply Forall_forall; intros r Hr; apply target_rows_In in Hr;
    unfold key_lt; simpl; lia.
Qed.

Lemma updated_inserted_perm (survey_id i n : Z) (fields : list TargetField) :
  Permutation
    (updated_rows json_dumps survey_id i fields
     ++ inserted_rows json_dumps survey_id i n fields)
    (target_rows json_dumps survey_id i n fields).
Proof.
  revert i n. induction fields as [|field rest IH]; intros i n; simpl; [constructor|].
  destruct (tf_field_id field) as [fid|]; simpl.
  - constructor. apply IH.
  - symmetry. apply Permutation_cons_app. symmetry. apply IH.
Qed.

(** Entry by entry: the row at a position of the target rows. *)
Lemma target_rows_nth (survey_id i n : Z) (fields : list TargetField) (k : nat)
    (field : TargetField) :
  nth_error fields k = Some field ->
  exists fid,
    nth_error (target_rows json_dumps survey_id i n fields) k
    = Some (target_row json_dumps survey_id field fid (i + Z.of_nat k))
    /\ (forall f0, tf_field_id field = Some f0 -> fid = f0)
    /\ (tf_field_id field = None -> n <= fid).
Proof.
  revert i n k. induction fields as [|f rest IH]; intros i n k H.
  - destruct k; discriminate H.
  - destruct k as [|k]; simpl in H.
    + inversion H; subst f. simpl. destruct (tf_field_id field) as [fid|] eqn:E.
      * exists fid. rewrite Z.add_0_r. simpl. repeat split; congruence.
      * exists n. rewrite Z.add_0_r. simpl. repeat split; [congruence | lia].
    + simpl. destruct (tf_field_id f) as [fid0|].
      * destruct (IH (i + 1) n k H) as [fid [H1 [H2 H3]]]. exists fid. simpl.
        replace (i + Z.pos (Pos.of_succ_nat k)) with (i + 1 + Z.of_nat k) by lia. auto.
      * destruct (IH (i + 1) (n + 1) k H) as [fid [H1 [H2 H3]]]. exists fid. simpl.
        replace (i + Z.pos (Pos.of_succ_nat k)) with (i + 1 + Z.of_nat k) by lia.
        repeat split; auto. intros E. specialize (H3 E). lia.
Qed.

Lemma target_rows_length (survey_id i n : Z) (fields : list TargetField) :
  List.length (target_rows json_dumps survey_id i n fields) = List.length fields.
Proof.
  revert i n. induction fields as [|f rest IH]; intros i n; simpl; [reflexivity|].
  destruct (tf_field_id f); simpl; now rewrite IH.
Qed.

End ReconcileListing.

Section ReconcileTheorem.

Variable json_dumps : pyval -> string.

(** The rows of the survey after [update_survey] are the rows the
    target list describes, in some order. *)
Lemma update_survey_rows_perm (survey_id : Z) (survey_name : string) (is_active : bool)
    (fields : list TargetField) (db : Store) :
  NoDup (map sf_field_id (Survey_Fields db)) ->
  (forall sf, In sf (Survey_Fields db) -> sf_field_id sf < Survey_Fields_seq db) ->
  NoDup (updated_field_ids fields) ->
  (forall fid, In fid (updated_field_ids fields) ->
     exists sf, In sf (Survey_Fields db) /\ sf_field_id sf = fid
                /\ sf_survey_id sf = survey_id) ->
  Permutation
    (filter (fun sf => sf_survey_id sf =? survey_id)
       (Survey_Fields (snd (update_survey json_dumps survey_id survey_name is_active
                              fields db))))
    (target_rows json_dumps survey_id 0 (Survey_Fields_seq db) fields).
Proof.
  intros Hpk Hfresh Hnd Hown.
  assert (Hlt : forall fid, In fid (updated_field_ids fields) -> fid < Survey_Fields_seq db).
  { intros fid Hfid. destruct (Hown fid Hfid) as [sf [Hsf [<- _]]]. now apply Hfresh. }
  rewrite (update_survey_table json_dumps survey_id survey_name is_active fields db Hlt).
  rewrite filter_app.
  rewrite filter_map_preserve
    by (intros x; now destruct (apply_updates_id json_dumps 0 fields x) as [_ ->]).
  rewrite (filter_id_ext _ (inserted_rows json_dumps survey_id 0 (Survey_Fields_seq db) fields))
    by (intros x Hx; apply inserted_rows_In in Hx; apply Z.eqb_eq; tauto).
  rewrite <- updated_inserted_perm. apply Permutation_app_tail.
  set (own := filter (fun sf => sf_survey_id sf =? survey_id)
                (kept_rows survey_id fields db)).
  assert (Hown_in : forall sf, In sf own <->
            In sf (Survey_Fields db) /\ sf_survey_id sf = survey_id
            /\ In (sf_field_id sf) (updated_field_ids fields)).
  { intros sf. unfold own. rewrite filter_In, kept_rows_In, fields_to_delete_In, Z.eqb_eq.
    split.
    - intros [[Hsf Hkeep] Es]. repeat split; auto.
      destruct (in_dec Z.eq_dec (sf_field_id sf) (updated_field_ids fields)) as [H|H];
        [exact H|].
      exfalso. apply Hkeep. split; [exists sf; auto | exact H].
    - intros [Hsf [Es Hin]]. repeat split; auto. intros [_ Hno]. now apply Hno. }
  apply NoDup_Permutation.
  - apply (NoDup_of_keys sf_field_id). rewrite map_map.
    rewrite (map_ext _ sf_field_id)
      by (intros x; now destruct (apply_updates_id json_dumps 0 fields x) as [-> _]).
    unfold own, kept_rows. now do 2 apply NoDup_map_filter.
  - apply (NoDup_of_keys sf_field_id). now rewrite updated_rows_ids.
  - intros r. rewrite in_map_iff. split.
    + intros [sf [<- Hsf]]. apply Hown_in in Hsf. destruct Hsf as [_ [Es Hin]].
      rewrite <- Es. now apply apply_updates_hit.
    + intros Hr.
      assert (Hid : In (sf_field_id r) (updated_field_ids fields)).
      { rewrite <- (updated_rows_ids json_dumps survey_id 0 fields). now apply in_map. }
      destruct (Hown _ Hid) as [sf [Hsf [Eid Es]]].
      exists sf. split.
      * apply apply_updates_target; [exact Hnd | now rewrite Es | exact Eid].
      * apply Hown_in. rewrite Eid. auto.
Qed.

Lemma target_rows_nth_pinned (survey_id i n : Z) (fields : list TargetField) (k : nat)
    (field : TargetField) :
  nth_error fields k = Some field ->
  nth_error (target_rows json_dumps survey_id i n fields) k
  = Some (mkSurveyField
            match tf_field_id field with
            | Some fid => fid
            | None =>
                n + Z.of_nat (List.length
                                (filter (fun f => match tf_field_id f with
                                                  | None => true
                                                  | Some _ => false
                                                  end) (firstn k fields)))
            end
            survey_id (tf_field_label field) (tf_field_type field)
            match tf_field_options field with
            | Some (o :: os) => Some (json_dumps (PyList (o :: os)))
            | _ => None
            end
            match tf_is_required field with Some b => b | None => false end
            (i + Z.of_nat k)).
Proof.
  revert i n k. induction fields as [|f rest IH]; intros i n k H.
  - destruct k; discriminate H.
  - destruct k as [|k]; simpl in H.
    + inversion H; subst f. simpl.
      destruct (tf_field_id field) as [fid|]; simpl; rewrite ?Z.add_0_r; reflexivity.
    + simpl. destruct (tf_field_id f) as [fid0|] eqn:Ef; simpl.
      * rewrite (IH (i + 1) n k H).
        replace (i + 1 + Z.of_nat k) with (i + Z.pos (Pos.of_succ_nat k)) by lia.
        reflexivity.
      * rewrite (IH (i + 1) (n + 1) k H).
        replace (i + 1 + Z.of_nat k) with (i + Z.pos (Pos.of_succ_nat k)) by lia.
        destruct (tf_field_id field); [reflexivity|].
        do 2 f_equal. lia.
Qed.

(** C4: after [update_survey] on a survey, with a target list whose
    ids are distinct and are ids of fields of that survey (field ids
    being unique in the table and below the next id drawn), the call
    succeeds and [get_survey_fields] returns exactly the entries of the
    list in submitted order: as many rows as entries, and the entry at
    position [k] is listed at position [k] with its label, its type,
    the JSON text of its options (NULL when it has none), its required
    flag ([False] when the key is absent) and order index [k], whether
    it was updated or inserted; an entry that carries an id keeps it, a
    new one takes the next id drawn, counting the new entries before
    it; and no field of the survey whose id is absent from the list is
    listed any more. *)
Theorem update_survey_lists_target (survey_id : Z) (survey_name : string) (is_active : bool)
    (fields : list TargetField) (db : Store) :
  NoDup (map sf_field_id (Survey_Fields db)) ->
  (forall sf, In sf (Survey_Fields db) -> sf_field_id sf < Survey_Fields_seq db) ->
  NoDup (updated_field_ids fields) ->
  (forall fid, In fid (updated_field_ids fields) ->
     exists sf, In sf (Survey_Fields db) /\ sf_field_id sf = fid
                /\ sf_survey_id sf = survey_id) ->
  let '(ok, db') := update_survey json_dumps survey_id survey_name is_active fields db in
  let listing := get_survey_fields survey_id db' in
  ok = true
  /\ List.length listing = List.length fields
  /\ (forall k field, nth_error fields k = Some field ->
        nth_error listing k
        = Some (mkFieldTuple
                  match tf_field_id field with
                  | Some fid => fid
                  | None =>
                      Survey_Fields_seq db
                      + Z.of_nat (List.length
                                    (filter (fun f => match tf_field_id f with
                                                      | None => true
                                                      | Some _ => false
                                                      end) (firstn k fields)))
                  end
                  (tf_field_label field) (tf_field_type field)
                  match tf_field_options field with
                  | Some (o :: os) => Some (json_dumps (PyList (o :: os)))
                  | _ => None
                  end
                  match tf_is_required field with Some b => b | None => false end
                  (Z.of_nat k)))
  /\ (forall sf, In sf (Survey_Fields db) -> sf_survey_id sf = survey_id ->
        ~ In (sf_field_id sf) (updated_field_ids fields) ->
        ~ In (sf_field_id sf) (map field_id listing)).
Proof.
  intros Hpk Hfresh Hnd Hown.
  pose proof (update_survey_rows_perm survey_id survey_name is_active fields db
                Hpk Hfresh Hnd Hown) as Hperm.
  pose proof (update_survey_frame json_dumps survey_id survey_name is_active fields db) as Hf.
  destruct (update_survey json_dumps survey_id survey_name is_active fields db) as [ok db'].
  simpl in Hperm. destruct Hf as [Hok _]. cbv zeta.
  assert (Hlist : get_survey_fields survey_id db'
                  = map field_tuple
                      (target_rows json_dumps survey_id 0 (Survey_Fields_seq db) fields)).
  { unfold get_survey_fields. rewrite execute_query_fetch_all. simpl.
    rewrite (order_by_unique sf_field_order _ _ Hperm (target_rows_sorted _ _ _ _ _)).
    reflexivity. }
  rewrite Hlist.
  split; [exact Hok|]. split; [|split].
  - now rewrite length_map, target_rows_length.
  - intros k field Hk. rewrite nth_error_map.
    rewrite (target_rows_nth_pinned survey_id 0 (Survey_Fields_seq db) fields k field Hk).
    reflexivity.
  - intros sf Hsf Hs Hno Hin.
    rewrite map_map in Hin. apply in_map_iff in Hin. destruct Hin as [r [E Hr]].
    simpl in E. apply target_rows_In in Hr. destruct Hr as [_ [Hr|Hr]].
    + apply Hno. now rewrite <- E.
    + specialize (Hfresh sf Hsf). lia.
Qed.

End ReconcileTheorem.

(** The scenario of the specification on [cairo_db], fields A and B:
    B is kept, turned into a required dropdown with two options, and C
    is new. *)
Lemma update_survey_lists_target_cairo :
  let '(ok, db') := update_survey no_dumps 7 "Weekly Health Check" true target_B_options_C
                      cairo_db in
  let listing := get_survey_fields 7 db' in
  ok = true
  /\ List.length listing = List.length target_B_options_C
  /\ (forall k field, nth_error target_B_options_C k = Some field ->
        nth_error listing k
        = Some (mkFieldTuple
                  match tf_field_id field with
                  | Some fid => fid
                  | None =>
                      Survey_Fields_seq cairo_db
                      + Z.of_nat (List.length
                                    (filter (fun f => match tf_field_id f with
                                                      | None => true
                                                      | Some _ => false
                                                      end) (firstn k target_B_options_C)))
                  end
                  (tf_field_label field) (tf_field_type field)
                  match tf_field_options field with
                  | Some (o :: os) => Some (no_dumps (PyList (o :: os)))
                  | _ => None
                  end
                  match tf_is_required field with Some b => b | None => false end
                  (Z.of_nat k)))
  /\ (forall sf, In sf (Survey_Fields cairo_db) -> sf_survey_id sf = 7 ->
        ~ In (sf_field_id sf) (updated_field_ids target_B_options_C) ->
        ~ In (sf_field_id sf) (map field_id listing)).
Proof.
  apply (update_survey_lists_target no_dumps 7 "Weekly Health Check" true target_B_options_C
           cairo_db).
  - simpl. repeat constructor; simpl; intuition discriminate.
  - intros sf [<-|[<-|[]]]; simpl; lia.
  - simpl. repeat constructor; simpl; intuition.
  - intros fid [<-|[]]. exists (mkSurveyField 2 7 "B" "text" None false 1).
    simpl. auto.
Defined.

Example update_survey_options_listing :
  get_survey_fields 7
    (snd (update_survey no_dumps 7 "Weekly Health Check" true target_B_options_C cairo_db))
  = [mkFieldTuple 2 "B" "dropdown" (Some "x,y") true 0;
     mkFieldTuple 3 "C" "text" None false 1].
Proof. reflexivity. Qed.

Example update_survey_scenario_listing :
  get_survey_fields 7
    (snd (update_survey no_dumps 7 "Weekly Health Check" true target_B_C cairo_db))
  = [mkFieldTuple 2 "B" "text" None false 0; mkFieldTuple 3 "C" "text" None true 1].
Proof. reflexivity. Qed.

(** ** What an accepted submission does *)

(** [save_response] passes both [fetch_one] and [commit]; [execute_query]
    tests [commit] first and returns [True], so subscripting the result
    raises after the row is committed.  A submission that is not rejected
    therefore leaves one Response row and no ResponseDetail, and ends in
    the exception instead of the submission message. *)
Theorem save_response_raises_after_commit (py_str : pyval -> string)
    (user_id survey_id region_id : Z) (fields : list FieldTuple) (answers : dict)
    (is_completed : bool) (now_check now_save : Z) (db : Store) :
  save_response survey_id user_id region_id is_completed now_save db
  = (Raised "TypeError: 'bool' object is not subscriptable",
     with_Responses
       (fun t => t ++ [mkResponse (Responses_seq db) survey_id user_id region_id
                         is_completed now_save])
       (Responses_seq db + 1) db)
  /\ let '(r, db') :=
       process_survey_submission py_str user_id survey_id region_id fields answers
         is_completed now_check now_save db in
     (db' = db
      /\ (r = MissingRequiredFields (check_required_fields fields answers)
          \/ r = AlreadyCompletedToday))
     \/ (r = Propagated "TypeError: 'bool' object is not subscriptable"
         /\ Responses db'
            = Responses db ++ [mkResponse (Responses_seq db) survey_id user_id region_id
                                 is_completed now_save]
         /\ Response_Details db' = Response_Details db).
Proof.
  split; [reflexivity|].
  unfold process_survey_submission.
  destruct (match check_required_fields fields answers with
            | [] => false | _ :: _ => true end && is_completed); [left; auto|].
  destruct (is_completed && has_completed_survey_today user_id survey_id now_check db);
    [left; auto|].
  right. simpl. auto.
Qed.

(** * Further properties *)

(** ** Deleting within the organisation hierarchy *)

Lemma fetch_one_truthy {R} (q : Statement R) (db : Store) :
  qtruthy (fst (execute_query q true false false db)) = true <-> fst (q db) <> [].
Proof.
  unfold execute_query. destruct (q db) as [rows db']. simpl.
  destruct rows; simpl; split; intros H; congruence.
Qed.

Lemma filter_nonempty {A} (p : A -> bool) (l : list A) :
  filter p l <> [] <-> exists x, In x l /\ p x = true.
Proof.
  split.
  - destruct (filter p l) as [|x rest] eqn:E; [congruence|]. intros _.
    exists x. apply filter_In. rewrite E. now left.
  - intros [x Hx] E. apply filter_In in Hx. rewrite E in Hx. contradiction.
Qed.

Lemma filter_head {A} (p : A -> bool) (l : list A) (x : A) (rest : list A) :
  filter p l = x :: rest -> In x l /\ p x = true.
Proof. intros E. apply filter_In. rewrite E. now left. Qed.

(** [delete_governorate] answers [False] exactly when a health
    administration refers to the governorate, and then leaves the store
    as it was; otherwise it removes the rows of that id and nothing else.
    Either way no health administration is left without its governorate. *)
Theorem delete_governorate_keeps_references (governorate_id : Z) (db : Store) :
  let '(ok, db') := delete_governorate governorate_id db in
  (ok = false <->
     exists ha, In ha (HealthAdministrations db) /\ ha_governorate_id ha = governorate_id)
  /\ (ok = false -> db' = db)
  /\ (ok = true ->
        Governorates db'
        = filter (fun g => negb (g_governorate_id g =? governorate_id)) (Governorates db)
        /\ HealthAdministrations db' = HealthAdministrations db
        /\ Users db' = Users db /\ SurveyGovernorate db' = SurveyGovernorate db)
  /\ (administrations_refer_to_governorates db -> administrations_refer_to_governorates db').
Proof.
  unfold delete_governorate.
  match goal with |- context [qtruthy ?q] => destruct (qtruthy q) eqn:Eq end.
  - apply fetch_one_truthy in Eq. simpl in Eq.
    assert (Hex : exists ha, In ha (HealthAdministrations db)
                             /\ ha_governorate_id ha = governorate_id).
    { destruct (filter (fun ha => ha_governorate_id ha =? governorate_id)
                  (HealthAdministrations db)) as [|ha rest] eqn:Ef; [now simpl in Eq|].
      exists ha. apply filter_head in Ef. rewrite <- Z.eqb_eq. exact Ef. }
    repeat split; auto; discriminate.
  - assert (Hno : forall ha, In ha (HealthAdministrations db) ->
                    ha_governorate_id ha <> governorate_id).
    { intros ha Hha E.
      assert (Ht : qtruthy (fst (execute_query
                 (fun d => (map ha_admin_id
                              (filter (fun ha0 => ha_governorate_id ha0 =? governorate_id)
                                 (HealthAdministrations d)), d)) true false false db)) = true).
      { apply fetch_one_truthy. simpl. intros En. apply map_eq_nil in En.
        revert En. apply filter_nonempty. exists ha. split; [exact Hha | now apply Z.eqb_eq]. }
      congruence. }
    simpl. split; [|split; [|split]].
    + split; [discriminate|]. intros [ha [Hha E]]. exfalso. now apply (Hno ha).
    + discriminate.
    + intros _. repeat split.
    + intros Hrefs ha Hha. destruct (Hrefs ha Hha) as [g [Hg Eg]].
      exists g. split; [|exact Eg]. simpl. apply filter_In. split; [exact Hg|].
      apply negb_true_iff, Z.eqb_neq. rewrite Eg. now apply Hno.
Qed.

(** [delete_health_admin] answers [False] exactly when a user is
    assigned to the health administration, and then leaves the store as
    it was; otherwise it removes the rows of that id and nothing else.
    Either way no user is left assigned to a missing administration. *)
Theorem delete_health_admin_keeps_references (admin_id : Z) (db : Store) :
  let '(ok, db') := delete_health_admin admin_id db in
  (ok = false <-> exists u, In u (Users db) /\ u_assigned_region u = Some admin_id)
  /\ (ok = false -> db' = db)
  /\ (ok = true ->
        HealthAdministrations db'
        = filter (fun ha => negb (ha_admin_id ha =? admin_id)) (HealthAdministrations db)
        /\ Users db' = Users db /\ Governorates db' = Governorates db
        /\ Responses db' = Responses db)
  /\ (users_refer_to_administrations db -> users_refer_to_administrations db').
Proof.
  unfold delete_health_admin.
  assert (Hopt : forall u, opt_eqb (u_assigned_region u) admin_id = true
                           <-> u_assigned_region u = Some admin_id).
  { intros u. unfold opt_eqb. destruct (u_assigned_region u) as [r|].
    - rewrite Z.eqb_eq. split; congruence.
    - split; discriminate. }
  match goal with |- context [qtruthy ?q] => destruct (qtruthy q) eqn:Eq end.
  - apply fetch_one_truthy in Eq. simpl in Eq.
    assert (Hex : exists u, In u (Users db) /\ u_assigned_region u = Some admin_id).
    { destruct (filter (fun u => opt_eqb (u_assigned_region u) admin_id) (Users db))
        as [|u rest] eqn:Ef; [now simpl in Eq|].
      exists u. apply filter_head in Ef. rewrite <- Hopt. exact Ef. }
    repeat split; auto; discriminate.
  - assert (Hno : forall u, In u (Users db) -> u_assigned_region u <> Some admin_id).
    { intros u Hu E.
      assert (Ht : qtruthy (fst (execute_query
                 (fun d => (map u_user_id
                              (filter (fun u0 => opt_eqb (u_assigned_region u0) admin_id)
                                 (Users d)), d)) true false false db)) = true).
      { apply fetch_one_truthy. simpl. intros En. apply map_eq_nil in En.
        revert En. apply filter_nonempty. exists u. split; [exact Hu | now apply Hopt]. }
      congruence. }
    simpl. split; [|split; [|split]].
    + split; [discriminate|]. intros [u [Hu E]]. exfalso. now apply (Hno u).
    + discriminate.
    + intros _. repeat split.
    + intros Hrefs u r Hu Er. destruct (Hrefs u r Hu Er) as [ha [Hha Eha]].
      exists ha. split; [|exact Eha]. simpl. apply filter_In. split; [exact Hha|].
      apply negb_true_iff, Z.eqb_neq. rewrite Eha. intros ->. now apply (Hno u).
Qed.

(** ** The forms of the system admin *)



(** ** Names of health administrations *)

Lemma NoDup_snoc {K} (l : list K) (k : K) : NoDup l -> ~ In k l -> NoDup (l ++ [k]).
Proof.
  intros Hnd Hk. induction l as [|a l IH]; simpl.
  - constructor; [intros [] | constructor].
  - inversion Hnd as [|? ? Hnot Hnd']; subst. constructor.
    + intros Hin. apply in_app_or in Hin. destruct Hin as [Hin|[E|[]]]; [contradiction|].
      apply Hk. now left.
    + apply IH; [exact Hnd'|]. intros H. apply Hk. now right.
Qed.

Lemma ha_pair_eqb (ha : HealthAdministration) (name : string) (gov : Z) :
  String.eqb (ha_admin_name ha) name && (ha_governorate_id ha =? gov) = true
  <-> ha_name_in_governorate ha = (name, gov).
Proof.
  unfold ha_name_in_governorate. rewrite andb_true_iff, String.eqb_eq, Z.eqb_eq.
  split; [intros [-> ->]; reflexivity | intros E; inversion E; auto].
Qed.

Lemma health_administrations_wf_add (admin_id : Z) (admin_name description : string)
    (governorate_id : Z) (db : Store) :
  health_administrations_wf db ->
  ~ In admin_id (map ha_admin_id (HealthAdministrations db)) ->
  health_administrations_wf (snd (add_health_admin admin_id admin_name description
                                    governorate_id db)).
Proof.
  intros [Hid Hpair] Hfresh. unfold add_health_admin.
  match goal with |- context [qtruthy ?q] => destruct (qtruthy q) eqn:Eq end;
    [split; assumption|].
  simpl. unfold health_administrations_wf. simpl. rewrite !map_app. simpl. split.
  - now apply NoDup_snoc.
  - apply NoDup_snoc; [exact Hpair|]. intros Hin. apply in_map_iff in Hin.
    destruct Hin as [ha [E Hha]].
    assert (Ht : qtruthy (fst (execute_query
               (fun d => (map ha_admin_id
                            (filter (fun ha0 => String.eqb (ha_admin_name ha0) admin_name
                                                && (ha_governorate_id ha0 =? governorate_id))
                               (HealthAdministrations d)), d)) true false false db)) = true).
    { apply fetch_one_truthy. simpl. intros En. apply map_eq_nil in En.
      revert En. apply filter_nonempty. exists ha. split; [exact Hha|].
      now apply ha_pair_eqb. }
    congruence.
Qed.

(** Health administration ids and the names within a governorate stay
    unique through [add_health_admin] (the id drawn being fresh) and
    through [delete_health_admin].  [add_health_admin] answers [False]
    and leaves the store as it was exactly when the governorate already
    has an administration of that name; it does not look the governorate
    up, and inserts the row otherwise. *)
Theorem health_administration_names_stay_unique (db : Store) (admin_id : Z)
    (admin_name description : string) (governorate_id : Z) (deleted_id : Z) :
  health_administrations_wf db ->
  ~ In admin_id (map ha_admin_id (HealthAdministrations db)) ->
  (let '(ok, db') := add_health_admin admin_id admin_name description governorate_id db in
   health_administrations_wf db'
   /\ (ok = false <->
         exists ha, In ha (HealthAdministrations db)
                    /\ ha_name_in_governorate ha = (admin_name, governorate_id))
   /\ (ok = false -> db' = db)
   /\ (ok = true ->
         HealthAdministrations db'
         = HealthAdministrations db
           ++ [mkHealthAdministration admin_id admin_name description governorate_id]))
  /\ health_administrations_wf (snd (delete_health_admin deleted_id db)).
Proof.
  intros Hwf Hfresh. pose proof Hwf as [Hid Hpair]. split.
  - pose proof (health_administrations_wf_add admin_id admin_name description governorate_id
                  db Hwf Hfresh) as Hadd.
    unfold add_health_admin in *.
    match goal with |- context [qtruthy ?q] => destruct (qtruthy q) eqn:Eq end.
    + apply fetch_one_truthy in Eq. simpl in Eq.
      split; [exact Hwf|]. split; [|split; [reflexivity | discriminate]].
      split; [intros _ | reflexivity].
      destruct (filter (fun ha => String.eqb (ha_admin_name ha) admin_name
                                  && (ha_governorate_id ha =? governorate_id))
                  (HealthAdministrations db)) as [|ha rest] eqn:Ef; [now simpl in Eq|].
      exists ha. apply filter_head in Ef. rewrite <- ha_pair_eqb. exact Ef.
    + simpl in Hadd |- *. split; [exact Hadd|]. split; [|split; [discriminate | reflexivity]].
      split; [discriminate|]. intros [ha [Hha E]]. exfalso.
      assert (Ht : qtruthy (fst (execute_query
                 (fun d => (map ha_admin_id
                              (filter (fun ha0 => String.eqb (ha_admin_name ha0) admin_name
                                                  && (ha_governorate_id ha0 =? governorate_id))
                                 (HealthAdministrations d)), d)) true false false db)) = true).
      { apply fetch_one_truthy. simpl. intros En. apply map_eq_nil in En.
        revert En. apply filter_nonempty. exists ha. split; [exact Hha|].
        now apply ha_pair_eqb. }
      congruence.
  - unfold delete_health_admin.
    match goal with |- context [qtruthy ?q] => destruct (qtruthy q) end; [exact Hwf|].
    simpl. unfold health_administrations_wf. simpl. split.
    + now apply NoDup_map_filter.
    + clear Hid Hfresh Hwf. induction (HealthAdministrations db) as [|h l IH]; simpl;
        [constructor|].
      inversion Hpair as [|? ? Hnot Hpair']; subst.
      destruct (negb (ha_admin_id h =? deleted_id)); simpl; [|now apply IH].
      constructor; [|now apply IH].
      intros Hin. apply Hnot. apply in_map_iff in Hin. destruct Hin as [x [E Hx]].
      apply filter_In in Hx. rewrite <- E. apply in_map. tauto.
Qed.

Lemma health_administration_names_stay_unique_cairo :
  (let '(ok, db') := add_health_admin 11 "Cairo-Central" "again" 1 cairo_db in
   health_administrations_wf db'
   /\ (ok = false <->
         exists ha, In ha (HealthAdministrations cairo_db)
                    /\ ha_name_in_governorate ha = ("Cairo-Central", 1))
   /\ (ok = false -> db' = cairo_db)
   /\ (ok = true ->
         HealthAdministrations db'
         = HealthAdministrations cairo_db
           ++ [mkHealthAdministration 11 "Cairo-Central" "again" 1]))
  /\ health_administrations_wf (snd (delete_health_admin 10 cairo_db)).
Proof.
  apply (health_administration_names_stay_unique cairo_db 11 "Cairo-Central" "again" 1 10).
  - unfold health_administrations_wf. simpl.
    split; repeat constructor; simpl; intuition discriminate.
  - simpl. intros [H|[]]. discriminate H.
Defined.

(** ** Deleting a user *)


(** ** The listings of employees and of governorate admins *)

Lemma flat_map_ext_in {A B} (f g : A -> list B) (l : list A) :
  (forall x, In x l -> f x = g x) -> flat_map f l = flat_map g l.
Proof.
  induction l as [|a l IH]; intros H; simpl; [reflexivity|].
  rewrite (H a (or_introl eq_refl)). f_equal. apply IH. intros x Hx. apply H. now right.
Qed.

Lemma filter_flat_map {A B} (p : B -> bool) (f : A -> list B) (l : list A) :
  filter p (flat_map f l) = flat_map (fun x => filter p (f x)) l.
Proof.
  induction l as [|a l IH]; simpl; [reflexivity|]. now rewrite filter_app, IH.
Qed.

Lemma map_flat_map_in {A B C} (g : B -> C) (f : A -> list B) (l : list A) :
  map g (flat_map f l) = flat_map (fun x => map g (f x)) l.
Proof.
  induction l as [|a l IH]; simpl; [reflexivity|]. now rewrite map_app, IH.
Qed.

Lemma flat_map_over_map {A B C} (g : A -> B) (f : B -> list C) (l : list A) :
  flat_map f (map g l) = flat_map (fun x => f (g x)) l.
Proof. induction l as [|a l IH]; simpl; [reflexivity|]. now rewrite IH. Qed.

Lemma flat_map_over_filter {A B} (p : A -> bool) (f : A -> list B) (l : list A) :
  flat_map f (filter p l) = flat_map (fun x => if p x then f x else []) l.
Proof.
  induction l as [|a l IH]; simpl; [reflexivity|].
  destruct (p a); simpl; now rewrite IH.
Qed.

(** Over a table with a unique key, a join that keeps one key value
    comes to the row of that key. *)
Lemma flat_map_unique_key {A B} (key : A -> Z) (f : A -> list B) (l : list A) (x : A) :
  NoDup (map key l) -> In x l ->
  (forall y, key y <> key x -> f y = []) ->
  flat_map f l = f x.
Proof.
  intros Hnd Hin Hoff. induction l as [|a l IH]; [contradiction|].
  simpl in Hnd. inversion Hnd as [|? ? Hnot Hnd']; subst. simpl.
  destruct Hin as [->|Hin].
  - rewrite (flat_map_nil_ext f l); [apply app_nil_r|].
    intros y Hy. apply Hoff. intros E. apply Hnot. rewrite <- E. now apply in_map.
  - rewrite (Hoff a); [now apply IH|].
    intros E. apply Hnot. rewrite E. now apply in_map.
Qed.

(** For an employee whom [get_governorate_employees] lists for a
    governorate (user ids and health administration ids being unique),
    [get_allowed_surveys] yields the active surveys among those
    [get_governorate_surveys] yields for that governorate, each as often,
    and no other: the two listings hold the same rows up to their order.
    A survey is on the employee's list exactly when the admin's list
    shows it as active. *)
Theorem employee_sees_active_governorate_surveys (str_ts : Z -> string)
    (governorate_id uid : Z) (username admin_name : string) (db : Store) :
  NoDup (map u_user_id (Users db)) ->
  NoDup (map ha_admin_id (HealthAdministrations db)) ->
  In (uid, username, admin_name) (get_governorate_employees governorate_id db) ->
  Permutation
    (get_allowed_surveys uid db)
    (map (fun t => (fst (fst (fst t)), snd (fst (fst t))))
       (filter (fun t => snd t) (get_governorate_surveys str_ts governorate_id db)))
  /\ (forall sid name,
        In (sid, name) (get_allowed_surveys uid db) <->
        exists created_at,
          In (sid, name, created_at, true)
             (get_governorate_surveys str_ts governorate_id db)).
Proof.
  intros Hu Hha Hin.
  assert (Heq : get_allowed_surveys uid db
                = map (fun t => (fst (fst (fst t)), snd (fst (fst t))))
                    (filter (fun t => snd t)
                       (get_governorate_surveys str_ts governorate_id db))).
  { unfold get_governorate_employees in Hin. rewrite execute_query_fetch_all in Hin.
    cbn [fst] in Hin.
    apply in_flat_map in Hin. destruct Hin as [u [Huin Hin]].
    apply in_flat_map in Hin. destruct Hin as [ha [Hhain Hin]].
    apply filter_In in Hhain. destruct Hhain as [Hhain Hassigned].
    destruct (String.eqb (u_role u) "employee" && (ha_governorate_id ha =? governorate_id))
      eqn:Econd; [|contradiction].
    destruct Hin as [Hin|[]]. inversion Hin; subst uid username admin_name; clear Hin.
    apply andb_true_iff in Econd. destruct Econd as [_ Egov]. apply Z.eqb_eq in Egov.
    unfold opt_eqb in Hassigned.
    destruct (u_assigned_region u) as [r|] eqn:Er; [|discriminate].
    apply Z.eqb_eq in Hassigned. subst r.
    unfold get_allowed_surveys, get_governorate_surveys.
    rewrite !execute_query_fetch_all. unfold get_allowed_surveys_query. cbn [fst].
    rewrite (flat_map_unique_key u_user_id _ (Users db) u Hu Huin).
    2: { intros y Hy. apply flat_map_nil_ext. intros ha' _.
         apply flat_map_nil_ext. intros sg _. apply flat_map_nil_ext. intros s _.
         now rewrite (proj2 (Z.eqb_neq _ _) Hy). }
    rewrite Er. cbn [opt_eqb].
    rewrite (filter_unique_key ha_admin_id (HealthAdministrations db) ha Hha Hhain).
    cbn [flat_map]. rewrite app_nil_r.
    rewrite flat_map_over_filter, filter_flat_map, map_flat_map_in.
    apply flat_map_ext_in. intros sg _.
    rewrite Egov, (Z.eqb_sym governorate_id).
    destruct (sg_governorate_id sg =? governorate_id).
    - rewrite filter_flat_map, map_flat_map_in. apply flat_map_ext_in. intros s _.
      rewrite Z.eqb_refl. simpl. destruct (s_is_active s); reflexivity.
    - symmetry. rewrite (flat_map_nil_ext _ _ (fun s _ => eq_refl)). reflexivity. }
  split.
  - rewrite Heq. apply Permutation_refl.
  - intros sid name. rewrite Heq. rewrite in_map_iff. split.
    + intros [[[[sid' name'] created_at] active] [E Hrow]].
      apply filter_In in Hrow. destruct Hrow as [Hrow Hactive].
      simpl in E, Hactive. inversion E; subst sid' name' active.
      now exists created_at.
    + intros [created_at Hrow]. exists (sid, name, created_at, true).
      split; [reflexivity|]. apply filter_In. now split.
Qed.

(** Saving the activation flag in [edit_governorate_survey]: switching
    a survey off removes it from the dashboard listing of every employee
    and changes nothing else there (the rows left are those that were
    listed under another id, each as often), while the governorate admin
    goes on listing the same surveys whatever flag is saved, so that the
    flag can be switched back.  Both hold of the rows listed, up to
    their order. *)
Theorem deactivated_survey_is_hidden (str_ts : Z -> string) (uid sid governorate_id : Z)
    (is_active : bool) (db : Store) :
  Permutation
    (get_allowed_surveys uid (edit_governorate_survey_save sid false db))
    (filter (fun t => negb (fst t =? sid)) (get_allowed_surveys uid db))
  /\ (forall name,
        ~ In (sid, name)
             (get_allowed_surveys uid (edit_governorate_survey_save sid false db)))
  /\ (forall other name, other <> sid ->
        (In (other, name)
            (get_allowed_surveys uid (edit_governorate_survey_save sid false db))
         <-> In (other, name) (get_allowed_surveys uid db)))
  /\ Permutation
       (map (fun t => fst (fst t))
          (get_governorate_surveys str_ts governorate_id
             (edit_governorate_survey_save sid is_active db)))
       (map (fun t => fst (fst t)) (get_governorate_surveys str_ts governorate_id db)).
Proof.
  assert (Heq : get_allowed_surveys uid (edit_governorate_survey_save sid false db)
                = filter (fun t => negb (fst t =? sid)) (get_allowed_surveys uid db)).
  { unfold get_allowed_surveys. rewrite !execute_query_fetch_all.
    unfold get_allowed_surveys_query. cbn [fst].
    cbn [Users HealthAdministrations SurveyGovernorate Surveys
         edit_governorate_survey_save with_Surveys].
    rewrite filter_flat_map. apply flat_map_ext_in. intros u _.
    rewrite filter_flat_map. apply flat_map_ext_in. intros ha _.
    rewrite filter_flat_map. apply flat_map_ext_in. intros sg _.
    rewrite filter_map_preserve by (intros s; destruct (s_survey_id s =? sid); reflexivity).
    rewrite flat_map_over_map, filter_flat_map. apply flat_map_ext_in. intros s _.
    destruct (Z.eqb_spec (s_survey_id s) sid) as [E|E]; simpl.
    + rewrite andb_false_r.
      destruct ((u_user_id u =? uid) && s_is_active s); simpl; [|reflexivity].
      now rewrite E, Z.eqb_refl.
    + destruct ((u_user_id u =? uid) && s_is_active s); simpl; [|reflexivity].
      now rewrite (proj2 (Z.eqb_neq _ _) E). }
  split; [rewrite Heq; apply Permutation_refl|].
  split.
  { intros name Hin. rewrite Heq in Hin. apply filter_In in Hin.
    destruct Hin as [_ Hne]. simpl in Hne. now rewrite Z.eqb_refl in Hne. }
  split.
  { intros other name Hother. rewrite Heq, filter_In. simpl.
    rewrite (proj2 (Z.eqb_neq _ _) Hother). simpl. tauto. }
  match goal with |- Permutation ?a ?b => cut (a = b); [intros ->; apply Permutation_refl|] end.
  unfold get_governorate_surveys. rewrite !execute_query_fetch_all. cbn [fst].
  cbn [SurveyGovernorate Surveys edit_governorate_survey_save with_Surveys].
  rewrite !map_flat_map_in. apply flat_map_ext_in. intros sg _.
  rewrite filter_map_preserve by (intros s; destruct (s_survey_id s =? sid); reflexivity).
  rewrite flat_map_over_map, !map_flat_map_in. apply flat_map_ext_in. intros s _.
  destruct (sg_governorate_id sg =? governorate_id); [|reflexivity].
  destruct (s_survey_id s =? sid); reflexivity.
Qed.

Lemma employee_sees_active_governorate_surveys_cairo :
  Permutation
    (get_allowed_surveys 1 cairo_db)
    (map (fun t => (fst (fst (fst t)), snd (fst (fst t))))
       (filter (fun t => snd t) (get_governorate_surveys (fun _ => "") 1 cairo_db)))
  /\ (forall sid name,
        In (sid, name) (get_allowed_surveys 1 cairo_db) <->
        exists created_at,
          In (sid, name, created_at, true)
             (get_governorate_surveys (fun _ => "") 1 cairo_db)).
Proof.
  apply (employee_sees_active_governorate_surveys (fun _ => "") 1 1 "u1" "Cairo-Central"
           cairo_db).
  - simpl. repeat constructor; simpl; intuition.
  - simpl. repeat constructor; simpl; intuition.
  - vm_compute. auto.
Defined.

(** ** Creating a survey *)

Section SaveSurveyFacts.

Variable json_dumps : pyval -> string.







End SaveSurveyFacts.


(** ** Answers across a reconciliation *)

Lemma get_response_details_In (response_id : Z) (db : Store) (t : DetailTuple) :
  In t (get_response_details response_id db) <->
  exists rd sf,
    In rd (Response_Details db) /\ In sf (Survey_Fields db)
    /\ rd_field_id rd = sf_field_id sf /\ rd_response_id rd = response_id
    /\ t = mkDetailTuple (rd_detail_id rd) (rd_field_id rd) (sf_field_label sf)
             (sf_field_type sf) (sf_field_options sf) (rd_answer_value rd).
Proof.
  unfold get_response_details. rewrite execute_query_fetch_all. cbn [fst].
  rewrite in_flat_map. split.
  - intros [rd [Hrd H]]. apply in_flat_map in H. destruct H as [sf [Hsf H]].
    apply filter_In in Hsf. destruct Hsf as [Hsf Ef]. apply Z.eqb_eq in Ef.
    destruct (Z.eqb_spec (rd_response_id rd) response_id) as [Er|Er]; [|contradiction].
    destruct H as [<-|[]]. exists rd, sf. auto.
  - intros [rd [sf [Hrd [Hsf [Ef [Er ->]]]]]]. exists rd. split; [exact Hrd|].
    apply in_flat_map. exists sf. split.
    + apply filter_In. split; [exact Hsf | now apply Z.eqb_eq].
    + rewrite (proj2 (Z.eqb_eq _ _) Er). now left.
Qed.

Lemma unique_key_row {A} (key : A -> Z) (l : list A) (x y : A) :
  NoDup (map key l) -> In x l -> In y l -> key x = key y -> x = y.
Proof.
  induction l as [|a l IH]; intros Hnd Hx Hy E; [contradiction|].
  simpl in Hnd. inversion Hnd as [|? ? Hnot Hnd']; subst.
  destruct Hx as [->|Hx]; destruct Hy as [->|Hy]; auto.
  - exfalso. apply Hnot. rewrite E. now apply in_map.
  - exfalso. apply Hnot. rewrite <- E. now apply in_map.
Qed.

Section AnswersAcrossReconciliation.

Variable json_dumps : pyval -> string.




End AnswersAcrossReconciliation.


Example answers_after_scenario :
  get_response_details 1 cairo_db
  = [mkDetailTuple 1 1 "A" "text" None "a"; mkDetailTuple 2 2 "B" "text" None "b"]
  /\ get_response_details 1
       (snd (update_survey no_dumps 7 "Weekly Health Check" true target_B_C cairo_db))
     = [mkDetailTuple 2 2 "B" "text" None "b"].
Proof. split; reflexivity. Qed.

(** ** Grants through the employee editor of the governorate admin *)




(** In [cairo_db] employee 1 holds a grant for survey 8 of Giza; the
    admin of Cairo saves the employee without touching the selection,
    and the grant is gone. *)
Example giza_grant_lost_on_save :
  UserSurveys cairo_db = [mkUserSurvey 1 8]
  /\ UserSurveys (snd (edit_employee_save (fun _ => "") keep_default 1 1 (Some 10) cairo_db))
     = [].
Proof. split; reflexivity. Qed.

(** ** Answers saved and read back *)

Section SavedAnswers.

Variable py_str : pyval -> string.

Lemma save_response_details_table (response_id : Z) (answers : dict) (db : Store) :
  let db' := save_response_details py_str response_id answers db in
  Response_Details db'
  = Response_Details db ++ saved_details py_str response_id (Response_Details_seq db) answers
  /\ Survey_Fields db' = Survey_Fields db.
Proof.
  revert db. induction answers as [|[fid answer] rest IH]; intros db; simpl.
  - now rewrite app_nil_r.
  - destruct answer; simpl;
      match goal with |- context [save_response_details _ _ _ ?d] =>
        destruct (IH d) as [H1 H2]; rewrite H1, H2; simpl;
        rewrite <- ?app_assoc; split; reflexivity
      end.
Qed.

Lemma saved_details_response (response_id n : Z) (answers : dict) (rd : ResponseDetail) :
  In rd (saved_details py_str response_id n answers) -> rd_response_id rd = response_id.
Proof.
  revert n. induction answers as [|[fid answer] rest IH]; intros n H; simpl in H;
    [contradiction|].
  destruct (is_not_none answer); [destruct H as [<-|H]; [reflexivity|]|]; eapply IH; eauto.
Qed.

(** [save_response_details] then [get_response_details], for a response
    that had no detail yet and answers keyed by fields of the table
    (field ids unique): the listing holds one row for every answer that
    is not [None], and no other, with the field id and the text [str]
    gives the answer (taken twice); so [False], zero and the empty string
    are stored as answers, [None] alone is skipped.  Every row carries
    the label, type and options of its field, and the listings of other
    responses hold the rows they held.  The order of the rows is the
    database's, and nothing is said of it. *)
Theorem saved_answers_read_back (response_id : Z) (answers : dict) (db : Store) :
  NoDup (map sf_field_id (Survey_Fields db)) ->
  (forall fid answer, In (fid, answer) answers ->
     exists sf, In sf (Survey_Fields db) /\ sf_field_id sf = fid) ->
  (forall rd, In rd (Response_Details db) -> rd_response_id rd <> response_id) ->
  let db' := save_response_details py_str response_id answers db in
  Permutation
    (map (fun t => (dt_field_id t, dt_answer_value t)) (get_response_details response_id db'))
    (map (fun p => (fst p, py_str (PyStr (py_str (snd p)))))
       (filter (fun p => is_not_none (snd p)) answers))
  /\ (forall t, In t (get_response_details response_id db') ->
        exists sf, In sf (Survey_Fields db) /\ sf_field_id sf = dt_field_id t
                   /\ dt_field_label t = sf_field_label sf
                   /\ dt_field_type t = sf_field_type sf
                   /\ dt_field_options t = sf_field_options sf)
  /\ (forall other, other <> response_id ->
        Permutation (get_response_details other db') (get_response_details other db)).
Proof.
  intros Hpk Hfields Hnew.
  destruct (save_response_details_table response_id answers db) as [Ht Hsf].
  cbv zeta. split; [|split].
  - match goal with |- Permutation ?a ?b => cut (a = b); [intros ->; apply Permutation_refl|] end.
    unfold get_response_details. rewrite execute_query_fetch_all. cbn [fst].
    rewrite Ht, Hsf, flat_map_app.
    rewrite (flat_map_nil_ext _ (Response_Details db)).
    2: { intros rd Hrd. rewrite (proj2 (Z.eqb_neq _ _) (Hnew rd Hrd)).
         now apply flat_map_nil_ext. }
    simpl. clear Ht Hsf. generalize (Response_Details_seq db) as n.
    induction answers as [|[fid answer] rest IH]; intros n; [reflexivity|].
    assert (Hrest : forall f a, In (f, a) rest ->
                      exists sf, In sf (Survey_Fields db) /\ sf_field_id sf = f).
    { intros f a H. apply (Hfields f a). now right. }
    simpl. destruct (is_not_none answer) eqn:En; [|now apply IH].
    simpl. rewrite map_app, (IH Hrest). f_equal.
    destruct (Hfields fid answer (or_introl eq_refl)) as [sf [Hsfin Eid]]. subst fid.
    rewrite (filter_unique_key sf_field_id (Survey_Fields db) sf Hpk Hsfin).
    simpl. rewrite Z.eqb_refl. reflexivity.
  - intros t Hin. apply get_response_details_In in Hin.
    destruct Hin as [rd [sf [_ [Hsfin [Ef [_ ->]]]]]]. rewrite Hsf in Hsfin.
    exists sf. simpl. auto.
  - intros other Hother.
    match goal with |- Permutation ?a ?b => cut (a = b); [intros ->; apply Permutation_refl|] end.
    unfold get_response_details. rewrite !execute_query_fetch_all.
    cbn [fst]. rewrite Ht, Hsf, flat_map_app.
    rewrite (flat_map_nil_ext _ (saved_details _ _ _ _)); [apply app_nil_r|].
    intros rd Hrd. apply saved_details_response in Hrd. rewrite Hrd.
    assert (E : (response_id =? other) = false) by (apply Z.eqb_neq; auto).
    rewrite E. now apply flat_map_nil_ext.
Qed.

End SavedAnswers.

Lemma saved_answers_read_back_cairo :
  let db' := save_response_details plain_str 2 [(1, PyBool false); (2, PyNone)] cairo_db in
  Permutation
    (map (fun t => (dt_field_id t, dt_answer_value t)) (get_response_details 2 db'))
    (map (fun p => (fst p, plain_str (PyStr (plain_str (snd p)))))
       (filter (fun p => is_not_none (snd p)) [(1, PyBool false); (2, PyNone)]))
  /\ (forall t, In t (get_response_details 2 db') ->
        exists sf, In sf (Survey_Fields cairo_db) /\ sf_field_id sf = dt_field_id t
                   /\ dt_field_label t = sf_field_label sf
                   /\ dt_field_type t = sf_field_type sf
                   /\ dt_field_options t = sf_field_options sf)
  /\ (forall other, other <> 2 ->
        Permutation (get_response_details other db') (get_response_details other cairo_db)).
Proof.
  apply (saved_answers_read_back plain_str 2 [(1, PyBool false); (2, PyNone)]
           cairo_db).
  - simpl. repeat constructor; simpl; intuition discriminate.
  - intros fid answer [H|[H|[]]]; inversion H; subst; simpl; eauto.
  - intros rd [<-|[<-|[]]]; simpl; lia.
Defined.

(** ** Drafts, completions and the form of the day *)

Lemma has_completed_survey_today_iff (user_id survey_id now : Z) (db : Store) :
  has_completed_survey_today user_id survey_id now db = true <->
  exists r, In r (Responses db) /\ completed_on user_id survey_id (date_of now) r = true.
Proof.
  unfold has_completed_survey_today. rewrite fetch_one_truthy. simpl.
  change (fun r => (r_user_id r =? user_id) && (r_survey_id r =? survey_id)
                   && r_is_completed r && (date_of (r_submission_date r) =? date_of now))
    with (completed_on user_id survey_id (date_of now)).
  rewrite <- filter_nonempty. split; intros H E; apply H.
  - now rewrite E.
  - now apply map_eq_nil in E.
Qed.

Lemma display_single_survey_ext (user_id survey_id now : Z) (db db' : Store) :
  Surveys db' = Surveys db -> Survey_Fields db' = Survey_Fields db ->
  has_completed_survey_today user_id survey_id now db'
  = has_completed_survey_today user_id survey_id now db ->
  display_single_survey user_id survey_id now db'
  = display_single_survey user_id survey_id now db.
Proof.
  intros Hs Hf Hc. unfold display_single_survey, get_survey_by_id, get_survey_fields.
  rewrite Hc. unfold execute_query. simpl. now rewrite Hs, Hf.
Qed.

(** A submission that is not flagged completed (the draft button) is
    never rejected: whatever fields are missing and whatever was
    completed before, one draft Response is inserted.  A draft does not
    count as a completion and does not change what
    [display_single_survey] shows: the form stays open that day. *)
Theorem draft_is_stored_and_never_locks (py_str : pyval -> string)
    (user_id survey_id region_id : Z) (fields : list FieldTuple) (answers : dict)
    (now_check now_save : Z) (db : Store) :
  let '(r, db') :=
    process_survey_submission py_str user_id survey_id region_id fields answers false
      now_check now_save db in
  r <> MissingRequiredFields (check_required_fields fields answers)
  /\ r <> AlreadyCompletedToday
  /\ Responses db'
     = Responses db ++ [mkResponse (Responses_seq db) survey_id user_id region_id false
                          now_save]
  /\ (forall u s d, completed_count db' u s d = completed_count db u s d)
  /\ (forall u s now, display_single_survey u s now db' = display_single_survey u s now db).
Proof.
  unfold process_survey_submission. rewrite andb_false_r. simpl.
  split; [discriminate|]. split; [discriminate|]. split; [reflexivity|].
  assert (Hcount : forall u s d,
            filter (completed_on u s d)
              (Responses db ++ [mkResponse (Responses_seq db) survey_id user_id region_id
                                  false now_save])
            = filter (completed_on u s d) (Responses db)).
  { intros u s d. rewrite filter_app. simpl. unfold completed_on at 2. simpl.
    rewrite andb_false_r. simpl. apply app_nil_r. }
  split.
  - intros u s d. unfold completed_count. simpl. now rewrite Hcount.
  - intros u s now. apply display_single_survey_ext; try reflexivity.
    unfold has_completed_survey_today, execute_query. simpl.
    change (fun r => (r_user_id r =? u) && (r_survey_id r =? s)
                     && r_is_completed r && (date_of (r_submission_date r) =? date_of now))
      with (completed_on u s (date_of now)).
    now rewrite Hcount.
Qed.

(** A completed submission that passes both checks, for a survey of the
    store: the call ends in the exception and stores no answer, yet its
    Response row counts: for the rest of that day [display_single_survey]
    shows the warning instead of the form, and another completed
    submission of the user for the survey is rejected as already
    completed (or for its missing fields). *)
Theorem accepted_completion_locks_the_day (py_str : pyval -> string)
    (user_id survey_id region_id : Z) (fields : list FieldTuple) (answers : dict)
    (now_check now_save : Z) (db : Store) :
  check_required_fields fields answers = [] ->
  has_completed_survey_today user_id survey_id now_check db = false ->
  (exists s, In s (Surveys db) /\ s_survey_id s = survey_id) ->
  let '(r, db') :=
    process_survey_submission py_str user_id survey_id region_id fields answers true
      now_check now_save db in
  r = Propagated "TypeError: 'bool' object is not subscriptable"
  /\ Response_Details db' = Response_Details db
  /\ (forall now, date_of now = date_of now_save ->
        display_single_survey user_id survey_id now db' = CompletedTodayWarning)
  /\ (forall region' fields' answers' now now', date_of now = date_of now_save ->
        let '(r', db'') :=
          process_survey_submission py_str user_id survey_id region' fields' answers' true
            now now' db' in
        db'' = db'
        /\ (r' = AlreadyCompletedToday
            \/ r' = MissingRequiredFields (check_required_fields fields' answers'))).
Proof.
  intros Hmissing Hnot [s [Hs Es]].
  unfold process_survey_submission. rewrite Hmissing, Hnot. simpl.
  set (db' := with_Responses
                (fun t => t ++ [mkResponse (Responses_seq db) survey_id user_id region_id
                                  true now_save])
                (Responses_seq db + 1) db).
  assert (Hdone : forall now, date_of now = date_of now_save ->
                    has_completed_survey_today user_id survey_id now db' = true).
  { intros now Hday. apply has_completed_survey_today_iff.
    exists (mkResponse (Responses_seq db) survey_id user_id region_id true now_save).
    split.
    - simpl. apply in_or_app. right. now left.
    - unfold completed_on. simpl. rewrite !Z.eqb_refl, Hday, Z.eqb_refl. reflexivity. }
  split; [reflexivity|]. split; [reflexivity|]. split.
  - intros now Hday. unfold display_single_survey.
    assert (Hfound : qtruthy (get_survey_by_id survey_id db') = true).
    { unfold get_survey_by_id. apply fetch_one_truthy. simpl. apply filter_nonempty.
      exists s. split; [exact Hs | now apply Z.eqb_eq]. }
    rewrite Hfound, (Hdone now Hday). reflexivity.
  - intros region' fields' answers' now now' Hday.
    fold (process_survey_submission py_str user_id survey_id region' fields' answers' true
            now now' db').
    unfold process_survey_submission. rewrite (Hdone now Hday).
    destruct (check_required_fields fields' answers'); simpl; auto.
Qed.

Lemma accepted_completion_locks_the_day_cairo :
  let '(r, db') :=
    process_survey_submission plain_str 1 7 10 cairo_fields
      [(1, PyStr "a"); (2, PyStr "b")] true 90000 90001 cairo_db in
  r = Propagated "TypeError: 'bool' object is not subscriptable"
  /\ Response_Details db' = Response_Details cairo_db
  /\ (forall now, date_of now = date_of 90001 ->
        display_single_survey 1 7 now db' = CompletedTodayWarning)
  /\ (forall region' fields' answers' now now', date_of now = date_of 90001 ->
        let '(r', db'') :=
          process_survey_submission plain_str 1 7 region' fields' answers' true
            now now' db' in
        db'' = db'
        /\ (r' = AlreadyCompletedToday
            \/ r' = MissingRequiredFields (check_required_fields fields' answers'))).
Proof.
  apply (accepted_completion_locks_the_day plain_str 1 7 10 cairo_fields
           [(1, PyStr "a"); (2, PyStr "b")] 90000 90001 cairo_db).
  - reflexivity.
  - reflexivity.
  - exists (mkSurvey 7 "Weekly Health Check" 99 0 true). simpl. auto.
Defined.

(** ** A target list that names a field of another survey *)

Lemma updated_rows_at (json_dumps : pyval -> string) (survey_id i : Z)
    (fields : list TargetField) (k : nat) (field : TargetField) (fid : Z) :
  nth_error fields k = Some field -> tf_field_id field = Some fid ->
  In (target_row json_dumps survey_id field fid (i + Z.of_nat k))
     (updated_rows json_dumps survey_id i fields).
Proof.
  revert i k. induction fields as [|f rest IH]; intros i k Hk Hid.
  - destruct k; discriminate Hk.
  - destruct k as [|k]; simpl in Hk.
    + inversion Hk; subst f. simpl. rewrite Hid, Z.add_0_r. now left.
    + replace (i + Z.of_nat (S k)) with ((i + 1) + Z.of_nat k) by lia.
      specialize (IH (i + 1) k Hk Hid). cbn [updated_rows].
      destruct (tf_field_id f); [now right | exact IH].
Qed.

(** The [UPDATE] of [update_survey] selects by field id alone.  When the
    entry at position [k] of the target list carries the id of a field
    of another survey (ids in the list distinct and below the next id
    drawn, field ids unique), that field stays with its survey and is
    rewritten: it takes the label and the type of the entry, the JSON
    text of its options (none when the entry has no option), its
    required flag (false when the entry has none) and [k] as order.  The
    other survey then lists the field so, and the survey being edited
    does not list it. *)
Theorem update_survey_rewrites_foreign_field (json_dumps : pyval -> string)
    (survey_id : Z) (survey_name : string) (is_active : bool) (fields : list TargetField)
    (db : Store) (k : nat) (field : TargetField) (foreign : SurveyField) :
  NoDup (map sf_field_id (Survey_Fields db)) ->
  (forall sf, In sf (Survey_Fields db) -> sf_field_id sf < Survey_Fields_seq db) ->
  NoDup (updated_field_ids fields) ->
  (forall fid, In fid (updated_field_ids fields) -> fid < Survey_Fields_seq db) ->
  In foreign (Survey_Fields db) ->
  sf_survey_id foreign <> survey_id ->
  nth_error fields k = Some field ->
  tf_field_id field = Some (sf_field_id foreign) ->
  let db' := snd (update_survey json_dumps survey_id survey_name is_active fields db) in
  In (mkSurveyField (sf_field_id foreign) (sf_survey_id foreign)
        (tf_field_label field) (tf_field_type field)
        match tf_field_options field with
        | Some (o :: os) => Some (json_dumps (PyList (o :: os)))
        | _ => None
        end
        match tf_is_required field with Some b => b | None => false end
        (Z.of_nat k))
     (Survey_Fields db')
  /\ In (mkFieldTuple (sf_field_id foreign)
           (tf_field_label field) (tf_field_type field)
           match tf_field_options field with
           | Some (o :: os) => Some (json_dumps (PyList (o :: os)))
           | _ => None
           end
           match tf_is_required field with Some b => b | None => false end
           (Z.of_nat k))
        (get_survey_fields (sf_survey_id foreign) db')
  /\ (forall x, In x (Survey_Fields db') -> sf_field_id x = sf_field_id foreign ->
        sf_survey_id x = sf_survey_id foreign)
  /\ ~ In (sf_field_id foreign) (map field_id (get_survey_fields survey_id db')).
Proof.
  intros Hpk Hfresh Hnd Hlt Hforeign Hs Hk Hid. cbv zeta.
  assert (Hfield : In field fields) by (eapply nth_error_In; eexact Hk).
  assert (Hin : In (sf_field_id foreign) (updated_field_ids fields)).
  { unfold updated_field_ids. apply in_flat_map. exists field. split; [exact Hfield|].
    rewrite Hid. now left. }
  assert (Htable := update_survey_table json_dumps survey_id survey_name is_active fields
                      db Hlt).
  assert (Hkept : In foreign (kept_rows survey_id fields db)).
  { apply kept_rows_In. split; [exact Hforeign|]. rewrite fields_to_delete_In.
    intros [_ Hno]. now apply Hno. }
  assert (Hrow : In (target_row json_dumps (sf_survey_id foreign) field (sf_field_id foreign)
                       (Z.of_nat k))
                    (Survey_Fields (snd (update_survey json_dumps survey_id survey_name
                                           is_active fields db)))).
  { pose proof (updated_rows_at json_dumps (sf_survey_id foreign) 0 fields k field
                  (sf_field_id foreign) Hk Hid) as Hat.
    rewrite Z.add_0_l in Hat.
    rewrite Htable. apply in_or_app. left. apply in_map_iff. exists foreign.
    split; [|exact Hkept]. now apply apply_updates_target. }
  assert (Hown : forall x,
             In x (Survey_Fields (snd (update_survey json_dumps survey_id survey_name
                                         is_active fields db))) ->
             sf_field_id x = sf_field_id foreign -> sf_survey_id x = sf_survey_id foreign).
  { intros x Hx Ex. rewrite Htable in Hx. apply in_app_or in Hx. destruct Hx as [Hx|Hx].
    - apply in_map_iff in Hx. destruct Hx as [y [Ey Hy]]. subst x.
      destruct (apply_updates_id json_dumps 0 fields y) as [Eid Esv].
      rewrite Eid in Ex. rewrite Esv.
      apply kept_rows_In in Hy. destruct Hy as [Hy _].
      f_equal. now apply (unique_key_row sf_field_id (Survey_Fields db)).
    - apply inserted_rows_In in Hx. specialize (Hfresh _ Hforeign). lia. }
  split; [exact Hrow|]. split; [|split; [exact Hown|]].
  - unfold get_survey_fields. rewrite execute_query_fetch_all.
    cbn [fst get_survey_fields_query].
    apply in_map_iff.
    exists (target_row json_dumps (sf_survey_id foreign) field (sf_field_id foreign)
              (Z.of_nat k)).
    split; [reflexivity|].
    apply (Permutation_in _ (Permutation_sym (order_by_perm sf_field_order _))).
    apply filter_In. split; [exact Hrow|]. simpl. apply Z.eqb_refl.
  - unfold get_survey_fields. rewrite execute_query_fetch_all. cbn [fst get_survey_fields_query].
    rewrite map_map. cbn [field_id]. intros Hlisted. apply in_map_iff in Hlisted.
    destruct Hlisted as [x [Ex Hx]].
    apply (Permutation_in _ (order_by_perm sf_field_order _)) in Hx.
    apply filter_In in Hx. destruct Hx as [Hx Exs]. apply Z.eqb_eq in Exs.
    apply Hs. rewrite <- Exs. symmetry. now apply Hown.
Qed.

Lemma update_survey_rewrites_foreign_field_cairo :
  let db' := snd (update_survey no_dumps 7 "Weekly Health Check" true target_with_foreign_id
                    two_survey_db) in
  In (mkSurveyField 3 8 "Overwritten" "number" (Some "x,y") false 2) (Survey_Fields db')
  /\ In (mkFieldTuple 3 "Overwritten" "number" (Some "x,y") false 2)
        (get_survey_fields 8 db')
  /\ (forall x, In x (Survey_Fields db') -> sf_field_id x = 3 -> sf_survey_id x = 8)
  /\ ~ In 3 (map field_id (get_survey_fields 7 db')).
Proof.
  apply (update_survey_rewrites_foreign_field no_dumps 7 "Weekly Health Check" true
           target_with_foreign_id two_survey_db 2%nat
           (mkTargetField (Some 3) "Overwritten" "number" (Some ["x"; "y"]) None)
           (mkSurveyField 3 8 "District" "text" None true 0)).
  - simpl. repeat constructor; simpl; intuition discriminate.
  - intros sf [<-|[<-|[<-|[]]]]; simpl; lia.
  - simpl. repeat constructor; simpl; intuition discriminate.
  - intros fid [<-|[<-|[<-|[]]]]; simpl; lia.
  - simpl. auto.
  - simpl. lia.
  - reflexivity.
  - reflexivity.
Defined.

Example foreign_field_after_update :
  get_survey_fields 8
    (snd (update_survey no_dumps 7 "Weekly Health Check" true target_with_foreign_id
            two_survey_db))
  = [mkFieldTuple 3 "Overwritten" "number" (Some "x,y") false 2].
Proof. reflexivity. Qed.
